(** * aimlflowrayed: the MLflow -> Aim synchronisation pipeline

    A shallow embedding of [aimlflowrayed/utils.py]: the run-hash cache
    ([RunHashCache]), experiment resolution ([get_mlflow_experiments]), the
    fetch side ([get_dummyrun], [collect_run_params], [collect_metrics],
    [fetch_run_details]), the commit side ([CommitWorker], [CommitDriver]) and
    the driver loop ([convert_existing_logs]).

    Ray actors and remote tasks are run sequentially: a remote call followed by
    [ray.get] is a plain call, and the state every actor owns is threaded
    explicitly.  Python exceptions are values of [exn] carried by [result]. *)

From Stdlib Require Import Floats Ascii.
From stdpp Require Import gmap strings list fin_maps pretty.

Open Scope string_scope.
Open Scope list_scope.
Local Set Warnings "-register-all".

(** ** Python values, exceptions *)

(** The Python values that occur as run parameters: what MLflow stores
    (strings, possibly under nested mappings) and what [literal_eval] gives
    back.  A [dict] keeps its insertion order, so it is an association list
    with distinct keys. *)
Inductive pyval :=
  | PyNone
  | PyBool (b : bool)
  | PyInt (z : Z)
  | PyFloat (f : float)
  | PyStr (s : string)
  | PyList (l : list pyval)
  | PyTuple (l : list pyval)
  | PyDict (d : list (string * pyval)).

(** The Python exceptions the modelled code raises or lets through.  An
    [AssertionError] keeps the value the assertion rejected, a [RuntimeError]
    its message. *)
Inductive exn :=
  | AssertionError (got : pyval)
  | RuntimeError (msg : string)
  | ValueError (msg : string)
  | IndexError
  | MlflowException (msg : string)
  | MissingRunError (run_hash : string).

(** A computation that returns a value or raises. *)
Inductive result (A : Type) :=
  | Ok (a : A)
  | Raise (e : exn).
Arguments Ok {A} a.
Arguments Raise {A} e.

(** [result] is a monad; stdpp's [x ← r; k] sequences two computations and
    stops at the first exception. *)
#[global] Instance result_ret : MRet result := fun A a => Ok a.
#[global] Instance result_bind : MBind result := fun A B k r =>
  match r with
  | Ok a => k a
  | Raise e => Raise e
  end.

(** [d.get(k)] on an insertion-ordered dict. *)
Fixpoint dict_get {V} (k : string) (d : list (string * V)) : option V :=
  match d with
  | [] => None
  | (k', v) :: d' => if decide (k' = k) then Some v else dict_get k d'
  end.

(** [d[k] = v]: overwrite in place when the key is there, append otherwise. *)
Fixpoint dict_set {V} (k : string) (v : V) (d : list (string * V)) : list (string * V) :=
  match d with
  | [] => [(k, v)]
  | (k', v') :: d' =>
      if decide (k' = k) then (k, v) :: d' else (k', v') :: dict_set k v d'
  end.

(** [s.startswith(p)]. *)
Fixpoint startswith (p s : string) : bool :=
  match p, s with
  | EmptyString, _ => true
  | String a p', String b s' => if decide (a = b) then startswith p' s' else false
  | String _ _, EmptyString => false
  end.

(** Truth value of a string ([if run_:]): the empty string is falsy. *)
Definition str_truthy (s : string) : bool :=
  match s with
  | EmptyString => false
  | String _ _ => true
  end.

(** Truth value of an optional string, [None] being falsy. *)
Definition truthy (o : option string) : bool :=
  match o with
  | None => false
  | Some s => str_truthy s
  end.

(** ** Files on disk

    The only file the code touches is the cache file, written with
    [json.dump] and read with [json.load].  Its text is kept as what
    [json.load] makes of it: the flat object it encodes, or nothing readable
    (an empty, truncated or corrupt file). *)
Inductive file_content :=
  | JsonObject (m : gmap string string)
  | Unreadable.

(** [os.path.join(a, b)] for a relative [b]. *)
Definition path_join (a b : string) : string :=
  match a with
  | EmptyString => b
  | _ => if startswith "/" (String.rev a) then a +:+ b else a +:+ "/" +:+ b
  end.

(** The primitive effects of writing a file: [open(path, 'w')] creates or
    truncates it, [json.dump(obj, FS)] then writes the encoded object. *)
Inductive fs_op :=
  | OpenTruncate (path : string)
  | JsonDump (path : string) (m : gmap string string).

Definition fs_step (fs : gmap string file_content) (op : fs_op) : gmap string file_content :=
  match op with
  | OpenTruncate p => <[p := Unreadable]> fs
  | JsonDump p m => <[p := JsonObject m]> fs
  end.

Definition fs_run (ops : list fs_op) (fs : gmap string file_content) : gmap string file_content :=
  foldl fs_step fs ops.

(** [json.load(open(path))]: [None] when the file is missing or does not
    parse, which the caller sees as an exception. *)
Definition json_load (fs : gmap string file_content) (path : string) : option (gmap string string) :=
  match fs !! path with
  | Some (JsonObject m) => Some m
  | Some Unreadable | None => None
  end.

(** ** RunHashCache *)

Module RunHashCache.

Record t := {
  _cache_path : string;
  _cache : gmap string string;
  _needs_refresh : bool;
}.

(** [__init__]: remove the file first under [no_cache], then load it; any
    failure to load gives the empty mapping. *)
Definition __init__ (repo_path : string) (no_cache : bool)
    (fs : gmap string file_content) : t * gmap string file_content :=
  let path := path_join repo_path "mlflow_logs_cache" in
  let fs' := if no_cache && bool_decide (is_Some (fs !! path)) then delete path fs else fs in
  ({| _cache_path := path;
      _cache := default ∅ (json_load fs' path);
      _needs_refresh := false |}, fs').

Definition get (self : t) (run_id : string) : option string :=
  _cache self !! run_id.

Definition __setitem__ (self : t) (key val : string) : t :=
  if negb (bool_decide (_cache self !! key = Some val)) then
    {| _cache_path := _cache_path self;
       _cache := <[key := val]> (_cache self);
       _needs_refresh := true |}
  else self.

Definition set (self : t) (run_id hashval : string) : t :=
  __setitem__ self run_id hashval.

(** [refresh]: the effects on the file, in order. *)
Definition refresh_ops (self : t) : list fs_op :=
  [OpenTruncate (_cache_path self); JsonDump (_cache_path self) (_cache self)].

Definition refresh (self : t) (fs : gmap string file_content) : t * gmap string file_content :=
  (self, fs_run (refresh_ops self) fs).

(** The file as a crash after the first [n] effects of [refresh] leaves it. *)
Definition refresh_interrupted (n : nat) (self : t) (fs : gmap string file_content)
    : gmap string file_content :=
  fs_run (take n (refresh_ops self)) fs.

End RunHashCache.

(** ** Recovering parameter values *)

(** The characters [str.strip()] removes are those [str.isspace()] accepts.
    A string is kept as its UTF-8 bytes.  The whitespace of one byte: space,
    tab, line feed, vertical tab, form feed, carriage return and the four
    separators 0x1c to 0x1f. *)
Definition is_space (c : ascii) : bool :=
  let n := nat_of_ascii c in
  ((n =? 32) || ((9 <=? n) && (n <=? 13)) || ((28 <=? n) && (n <=? 31)))%nat.

(** The whitespace of two bytes: U+0085 and U+00A0. *)
Definition is_space2 (a b : ascii) : bool :=
  let a := nat_of_ascii a in
  let b := nat_of_ascii b in
  ((a =? 194) && ((b =? 133) || (b =? 160)))%nat.

(** The whitespace of three bytes: U+1680, U+2000 to U+200A, U+2028, U+2029,
    U+202F, U+205F and U+3000. *)
Definition is_space3 (a b c : ascii) : bool :=
  let a := nat_of_ascii a in
  let b := nat_of_ascii b in
  let c := nat_of_ascii c in
  (((a =? 225) && (b =? 154) && (c =? 128))
   || ((a =? 226) && (b =? 128)
       && (((128 <=? c) && (c <=? 138)) || (c =? 168) || (c =? 169) || (c =? 175)))
   || ((a =? 226) && (b =? 129) && (c =? 159))
   || ((a =? 227) && (b =? 128) && (c =? 128)))%nat.

(** Dropping the whitespace at the head of [s]; [two] and [three] recognise
    the characters of two and three bytes. *)
Fixpoint lstrip_by (two : ascii -> ascii -> bool) (three : ascii -> ascii -> ascii -> bool)
    (s : string) : string :=
  match s with
  | String a r =>
      if is_space a then lstrip_by two three r
      else
        match r with
        | String b r2 =>
            if two a b then lstrip_by two three r2
            else
              match r2 with
              | String c r3 => if three a b c then lstrip_by two three r3 else s
              | EmptyString => s
              end
        | EmptyString => s
        end
  | EmptyString => s
  end.

Definition lstrip (s : string) : string := lstrip_by is_space2 is_space3 s.

(** The same from the end: on the reversed text the bytes of a character come
    last byte first. *)
Definition rstrip (s : string) : string :=
  String.rev
    (lstrip_by (fun b a => is_space2 a b) (fun c b a => is_space3 a b c) (String.rev s)).

Definition strip (s : string) : string := rstrip (lstrip s).

(** An evaluator of Python literals for decimal integers, [True], [False],
    [None], quoted strings of printable ASCII without escapes, and lists of
    these, with spaces and tabs between the tokens; it raises ([None]) on all
    other input, where [ast.literal_eval] accepts more (floats, signs, tuples,
    dicts, escapes, line breaks inside brackets).  It instantiates
    [literal_eval] where a concrete evaluator is needed. *)
Module Literal.

Definition is_digit (c : ascii) : bool :=
  ((48 <=? nat_of_ascii c) && (nat_of_ascii c <=? 57))%nat.

Definition digit_val (c : ascii) : Z := Z.of_nat (nat_of_ascii c) - 48.

(** The longest run of digits at the head of [s], and the rest. *)
Fixpoint span_digits (s : string) : list ascii * string :=
  match s with
  | String c r =>
      if is_digit c then let '(ds, r') := span_digits r in (c :: ds, r') else ([], s)
  | EmptyString => ([], s)
  end.

Definition squote : ascii := ascii_of_nat 39.
Definition dquote : ascii := ascii_of_nat 34.
Definition backslash : ascii := ascii_of_nat 92.

(** Space or tab. *)
Definition is_blank (c : ascii) : bool :=
  ((nat_of_ascii c =? 32) || (nat_of_ascii c =? 9))%nat.

Fixpoint skip_blank (s : string) : string :=
  match s with
  | String c r => if is_blank c then skip_blank r else s
  | EmptyString => s
  end.

(** A character allowed as it is inside quotes: printable ASCII other than
    the backslash. *)
Definition is_plain (c : ascii) : bool :=
  ((32 <=? nat_of_ascii c) && (nat_of_ascii c <=? 126))%nat
  && negb (bool_decide (c = backslash)).

(** The text up to the closing quote [q], and what follows the quote. *)
Fixpoint span_quoted (q : ascii) (s : string) : option (string * string) :=
  match s with
  | String c r =>
      if decide (c = q) then Some (EmptyString, r)
      else if negb (is_plain c) then None
      else '(body, r') ← span_quoted q r; Some (String c body, r')
  | EmptyString => None
  end.

(** Decimal integer literal: no leading zero unless every digit is zero, and
    no more digits than Python converts (4300). *)
Definition int_of_digits (ds : list ascii) : option Z :=
  let z := foldl (fun acc c => 10 * acc + digit_val c)%Z 0%Z ds in
  if (4300 <? length ds)%nat then None
  else
    match ds with
    | [] => None
    | [_] => Some z
    | d :: _ =>
        if decide (d = "0"%char) then (if decide (z = 0%Z) then Some z else None)
        else Some z
    end.

(** [s] without its prefix [p], when it has it. *)
Fixpoint drop_prefix (p s : string) : option string :=
  match p, s with
  | EmptyString, _ => Some s
  | String a p', String b s' => if decide (a = b) then drop_prefix p' s' else None
  | String _ _, EmptyString => None
  end.

Definition keyword (s : string) : option (pyval * string) :=
  match drop_prefix "True" s, drop_prefix "False" s, drop_prefix "None" s with
  | Some r, _, _ => Some (PyBool true, r)
  | _, Some r, _ => Some (PyBool false, r)
  | _, _, Some r => Some (PyNone, r)
  | _, _, _ => None
  end.

Fixpoint expr (fuel : nat) (s : string) : option (pyval * string) :=
  match fuel with
  | 0 => None
  | S n =>
      match skip_blank s with
      | String c r =>
          if decide (c = "["%char) then items n r []
          else if bool_decide (c = squote) || bool_decide (c = dquote) then
            '(body, r') ← span_quoted c r; Some (PyStr body, r')
          else if is_digit c then
            let '(ds, r') := span_digits (String c r) in
            z ← int_of_digits ds; Some (PyInt z, r')
          else keyword (String c r)
      | EmptyString => None
      end
  end
with items (fuel : nat) (s : string) (acc : list pyval) : option (pyval * string) :=
  match fuel with
  | 0 => None
  | S n =>
      match skip_blank s with
      | String "]" r => Some (PyList (reverse acc), r)
      | _ =>
          '(v, r) ← expr n s;
          match skip_blank r with
          | String "," r' => items n r' (v :: acc)
          | String "]" r' => Some (PyList (reverse (v :: acc)), r')
          | _ => None
          end
      end
  end.

(** The whole text must be one literal. *)
Definition eval (s : string) : option pyval :=
  '(v, r) ← expr (S (String.length s)) s;
  match skip_blank r with
  | EmptyString => Some v
  | _ => None
  end.

End Literal.

(** ** The MLflow side: what the tracking client returns *)

Module Experiment.
Record t := {
  experiment_id : string;
  name : string;
}.
End Experiment.

Module RunInfo.
Record t := {
  run_id : string;
  run_name : string;
  experiment_id : string;
}.
End RunInfo.

Module Metric.
Record t := {
  key : string;
  value : float;
  timestamp : Z;
  step : Z;
}.
End Metric.

(** [run.data]: [params] is the mapping MLflow returns (string leaves in
    practice, kept as a [pyval] because the code walks it as a tree), [tags]
    maps tag keys to strings and [metrics] metric names to their last value. *)
Module RunData.
Record t := {
  params : pyval;
  tags : list (string * string);
  metrics : list (string * float);
}.
End RunData.

Module MlflowRun.
Record t := {
  info : RunInfo.t;
  data : RunData.t;
}.
End MlflowRun.

(** The calls made on [MlflowClient]; each may raise.  [get_experiment]
    returns an experiment or raises, [get_experiment_by_name] returns [None]
    for an unknown name. *)
Module MlflowClient.
Record t := {
  search_experiments : result (list Experiment.t);
  get_experiment : string -> result Experiment.t;
  get_experiment_by_name : string -> result (option Experiment.t);
  search_runs : string -> result (list MlflowRun.t);
  get_run : string -> result MlflowRun.t;
  get_metric_history : string -> string -> result (list Metric.t);
}.
End MlflowClient.

(** ** The transfer record

    The [Namespace] built by [get_dummyrun]; [run_hash] is [None] when the
    attribute is missing ([hasattr(dummy, 'run_hash')] is false). *)
Module DummyRun.
Record t := {
  run_id : string;
  run_name : string;
  run_hash : option string;
  experiment : string;
  metrics : list (string * list Metric.t);
  params : list (string * pyval);
  artifacts : list (string * pyval);
}.

Definition with_params (d : t) (p : list (string * pyval)) : t :=
  {| run_id := run_id d; run_name := run_name d; run_hash := run_hash d;
     experiment := experiment d; metrics := metrics d; params := p;
     artifacts := artifacts d |}.

Definition with_metrics (d : t) (m : list (string * list Metric.t)) : t :=
  {| run_id := run_id d; run_name := run_name d; run_hash := run_hash d;
     experiment := experiment d; metrics := m; params := params d;
     artifacts := artifacts d |}.
End DummyRun.

(** ** The Aim side: the destination repository *)

(** One record of the repository: what was assigned to it ([name],
    [experiment], the attributes set with [aim_run[k] = v]) and the samples
    passed to [track], in call order. *)
Module AimRun.
Record t := {
  hash : string;
  name : option string;
  experiment : string;
  attrs : list (string * pyval);
  tracked : list (string * Z * float);
}.

Definition fresh (h experiment : string) : t :=
  {| hash := h; name := None; experiment := experiment; attrs := []; tracked := [] |}.

(** The handle on the record [r] opened under hash [h] for experiment [e]. *)
Definition opened (h : string) (r : t) (e : string) : t :=
  {| hash := h; name := name r; experiment := e; attrs := attrs r;
     tracked := tracked r |}.

Definition set_name (r : t) (n : string) : t :=
  {| hash := hash r; name := Some n; experiment := experiment r; attrs := attrs r;
     tracked := tracked r |}.

(** [aim_run[k] = v]. *)
Definition setitem (r : t) (k : string) (v : pyval) : t :=
  {| hash := hash r; name := name r; experiment := experiment r;
     attrs := dict_set k v (attrs r); tracked := tracked r |}.

(** [aim_run.track(value, step=step, name=name)]. *)
Definition track (r : t) (value : float) (step : Z) (name_ : string) : t :=
  {| hash := hash r; name := name r; experiment := experiment r; attrs := attrs r;
     tracked := tracked r ++ [(name_, step, value)] |}.
End AimRun.

(** Everything outside the program that a pass reads or changes: the files,
    the Aim repository (its records by hash), the hashes Aim generates for new
    records ([uuid n] is the [n]-th one drawn, [drawn] counts them), and the
    order in which [ray.wait] hands back the fetched records. *)
Record World := {
  fs : gmap string file_content;
  repo : gmap string AimRun.t;
  uuid : nat -> string;
  drawn : nat;
  ready_order : list DummyRun.t -> list DummyRun.t;
}.

Definition with_fs (w : World) (fs' : gmap string file_content) : World :=
  {| fs := fs'; repo := repo w; uuid := uuid w; drawn := drawn w;
     ready_order := ready_order w |}.

(** [Run(run_hash=..., repo=..., experiment=...)]: with a hash, Aim opens the
    record of that hash and raises [MissingRunError] when the repository has
    none; without one it generates a hash and starts a record under it. *)
Definition Run (run_hash : option string) (experiment : string) (w : World)
    : result (AimRun.t * World) :=
  match run_hash with
  | Some h =>
      match repo w !! h with
      | Some r => Ok (AimRun.opened h r experiment, w)
      | None => Raise (MissingRunError h)
      end
  | None =>
      let h := uuid w (drawn w) in
      Ok (AimRun.opened h (default (AimRun.fresh h experiment) (repo w !! h)) experiment,
          {| fs := fs w; repo := repo w; uuid := uuid w; drawn := S (drawn w);
             ready_order := ready_order w |})
  end.

(** Writing a record back under its hash. *)
Definition store (r : AimRun.t) (w : World) : World :=
  {| fs := fs w; repo := <[AimRun.hash r := r]> (repo w); uuid := uuid w;
     drawn := drawn w; ready_order := ready_order w |}.

(** ** Experiment resolution *)

Definition not_found_message (experiment : string) : string :=
  "Could not find experiment with id or name " +:+
  String Literal.dquote (experiment +:+ String Literal.dquote EmptyString).

Definition get_mlflow_experiments (client : MlflowClient.t) (experiment : option string)
    : result (list Experiment.t) :=
  match experiment with
  | None => MlflowClient.search_experiments client
  | Some experiment =>
      ex ← match MlflowClient.get_experiment client experiment with
           | Ok ex => Ok (Some ex)
           | Raise (MlflowException _) =>
               MlflowClient.get_experiment_by_name client experiment
           | Raise e => Raise e
           end;
      match ex with
      | None => Raise (RuntimeError (not_found_message experiment))
      | Some ex => Ok [ex]
      end
  end.

(** ** Partitioning a batch *)

(** [numpy.cumsum]. *)
Fixpoint cumsum (acc : nat) (l : list nat) : list nat :=
  match l with
  | [] => []
  | x :: r => (acc + x) :: cumsum (acc + x) r
  end.

(** [ary[st:end]] for [0 <= st]. *)
Definition slice {A} (ary : list A) (st end_ : nat) : list A :=
  take (end_ - st) (drop st ary).

(** [numpy.array_split(ary, Nsections)] along the only axis, as numpy
    computes it: [extras] sections of [Neach_section + 1] elements, then the
    others of [Neach_section], cut at the running sums of the sizes. *)
Definition array_split {A} (ary : list A) (Nsections : nat) : result (list (list A)) :=
  if decide (Nsections = 0) then Raise (ValueError "number sections must be larger than 0.")
  else
    let Ntotal := length ary in
    let Neach_section := Ntotal / Nsections in
    let extras := Ntotal mod Nsections in
    let section_sizes :=
      [0] ++ replicate extras (Neach_section + 1)
          ++ replicate (Nsections - extras) Neach_section in
    let div_points := cumsum 0 section_sizes in
    Ok ((fun i => slice ary (default 0 (div_points !! i)) (default 0 (div_points !! S i)))
          <$> seq 0 Nsections).

(** [[xs[j] for j in idx]]. *)
Fixpoint gather {A} (xs : list A) (idx : list nat) : result (list A) :=
  match idx with
  | [] => Ok []
  | j :: idx' =>
      match xs !! j with
      | Some x => r ← gather xs idx'; Ok (x :: r)
      | None => Raise IndexError
      end
  end.

(** ** Commit worker and commit driver *)

Module CommitWorker.
Record t := {
  _repo_path : string;
  _workername : string;
}.
End CommitWorker.

Module CommitDriver.
Record t := {
  workers : list CommitWorker.t;
}.

Definition __init__ (repo_path : string) (num_connections : nat) : t :=
  {| workers :=
       (fun i => {| CommitWorker._repo_path := repo_path;
                    CommitWorker._workername := "wrkr-" +:+ pretty i |})
         <$> seq 0 num_connections |}.
End CommitDriver.

(** The samples of one metric history, tracked in order. *)
Definition track_history (r : AimRun.t) (metric_history : list Metric.t) : AimRun.t :=
  foldl (fun r m => AimRun.track r (Metric.value m) (Metric.step m) (Metric.key m))
        r metric_history.

Definition commit_dummy_run (dummy : DummyRun.t) (w : World) : result (AimRun.t * World) :=
  '(aim_run, w) ← Run (DummyRun.run_hash dummy) (DummyRun.experiment dummy) w;
  let aim_run := AimRun.set_name aim_run (DummyRun.run_name dummy) in
  let aim_run := foldl (fun r kv => AimRun.setitem r kv.1 kv.2) aim_run (DummyRun.params dummy) in
  let aim_run := foldl (fun r kv => track_history r kv.2) aim_run (DummyRun.metrics dummy) in
  Ok (aim_run, store aim_run w).

(** [CommitWorker.commit]: the records in order, each followed by the cache
    update for it. *)
Fixpoint CommitWorker_commit (runs : list DummyRun.t) (st : RunHashCache.t * World)
    : result (RunHashCache.t * World) :=
  match runs with
  | [] => Ok st
  | drun :: runs' =>
      '(aimrun, w) ← commit_dummy_run drun st.2;
      CommitWorker_commit runs'
        (RunHashCache.set st.1 (DummyRun.run_id drun) (AimRun.hash aimrun), w)
  end.

(** The work list of every worker, [work = [dummy_runs[j] for j in works[i]]]
    for [i] over the workers. *)
Definition CommitDriver_works (self : CommitDriver.t) (dummy_runs : list DummyRun.t)
    : result (list (list DummyRun.t)) :=
  works ← array_split (seq 0 (length dummy_runs)) (length (CommitDriver.workers self));
  mapM (fun i => match works !! i with
                 | Some idx => gather dummy_runs idx
                 | None => Raise IndexError
                 end)
       (seq 0 (length (CommitDriver.workers self))).

(** Running the workers one after the other on their lists. *)
Fixpoint run_workers (works : list (list DummyRun.t)) (st : RunHashCache.t * World)
    : result (RunHashCache.t * World) :=
  match works with
  | [] => Ok st
  | work :: works' => st' ← CommitWorker_commit work st; run_workers works' st'
  end.

Definition CommitDriver_commit (self : CommitDriver.t) (dummy_runs : list DummyRun.t)
    (st : RunHashCache.t * World) : result (RunHashCache.t * World) :=
  works ← CommitDriver_works self dummy_runs;
  run_workers works st.

(** ** Fetching one run *)

Definition get_dummyrun (run_id run_name experiment_name : string)
    (run_cache : RunHashCache.t) : DummyRun.t :=
  let run_ := RunHashCache.get run_cache run_id in
  if truthy run_ then
    {| DummyRun.run_id := run_id;
       DummyRun.run_name := run_name;
       DummyRun.run_hash := run_;
       DummyRun.experiment := experiment_name;
       DummyRun.metrics := []; DummyRun.params := []; DummyRun.artifacts := [] |}
  else
    {| DummyRun.run_id := run_id;
       DummyRun.run_name := run_name;
       DummyRun.run_hash := None;
       DummyRun.experiment := experiment_name;
       DummyRun.metrics := []; DummyRun.params := []; DummyRun.artifacts := [] |}.

(** [isinstance(tree, collections.abc.Mapping)] holds of the dicts only; the
    comprehension maps the items in order and stops at the first exception. *)
Fixpoint _map_nested_dicts (fun_ : pyval -> result pyval) (tree : pyval) : result pyval :=
  match tree with
  | PyDict d =>
      d' ← (fix items (d : list (string * pyval)) : result (list (string * pyval)) :=
              match d with
              | [] => Ok []
              | (k, subtree) :: d =>
                  v ← _map_nested_dicts fun_ subtree;
                  d' ← items d;
                  Ok ((k, v) :: d')
              end) d;
      Ok (PyDict d')
  | _ => fun_ tree
  end.

(** [optional if timestamp:] the floor is applied when given and non-zero. *)
Definition filter_since (timestamp : option Z) (metric_history : list Metric.t)
    : list Metric.t :=
  match timestamp with
  | Some t =>
      if decide (t = 0%Z) then metric_history
      else filter (fun m => (t <= Metric.timestamp m)%Z) metric_history
  | None => metric_history
  end.

Fixpoint collect_metrics_keys (keys : list string) (dummyrun : DummyRun.t)
    (mlflow_run : MlflowRun.t) (mlflow_client : MlflowClient.t) (timestamp : option Z)
    : result DummyRun.t :=
  match keys with
  | [] => Ok dummyrun
  | key :: keys' =>
      metric_history ←
        MlflowClient.get_metric_history mlflow_client
          (RunInfo.run_id (MlflowRun.info mlflow_run)) key;
      let metric_history := filter_since timestamp metric_history in
      collect_metrics_keys keys'
        (DummyRun.with_metrics dummyrun
           (dict_set key metric_history (DummyRun.metrics dummyrun)))
        mlflow_run mlflow_client timestamp
  end.

Definition collect_metrics (dummyrun : DummyRun.t) (mlflow_run : MlflowRun.t)
    (mlflow_client : MlflowClient.t) (timestamp : option Z) : result DummyRun.t :=
  collect_metrics_keys (RunData.metrics (MlflowRun.data mlflow_run)).*1
    dummyrun mlflow_run mlflow_client timestamp.

(** A string or [None] as a Python value. *)
Definition of_optional_str (o : option string) : pyval :=
  match o with
  | Some s => PyStr s
  | None => PyNone
  end.

Section WithLiteralEval.

(** [ast.literal_eval], from the Python standard library: the value of the
    literal, or [None] when it raises. *)
Variable literal_eval : string -> option pyval.

Definition _try_parse_str (s : pyval) : result pyval :=
  match s with
  | PyStr str =>
      match literal_eval (strip str) with
      | Some v => Ok v
      | None => Ok s
      end
  | _ => Raise (AssertionError s)
  end.

Definition collect_run_params (dummyrun : DummyRun.t) (mlflow_run : MlflowRun.t)
    : result DummyRun.t :=
  let info := MlflowRun.info mlflow_run in
  let data := MlflowRun.data mlflow_run in
  let params := DummyRun.params dummyrun in
  let params := dict_set "mlflow_run_id" (PyStr (RunInfo.run_id info)) params in
  let params := dict_set "mlflow_run_id" (PyStr (RunInfo.run_id info)) params in
  let params := dict_set "mlflow_experiment_id" (PyStr (RunInfo.experiment_id info)) params in
  let params :=
    dict_set "description"
      (of_optional_str (dict_get "mlflow.note.content" (RunData.tags data))) params in
  parsed ← _map_nested_dicts _try_parse_str (RunData.params data);
  let params := dict_set "params" parsed params in
  let params :=
    dict_set "tags"
      (PyDict ((fun kv => (kv.1, PyStr kv.2)) <$>
                 filter (fun kv => negb (startswith "mlflow" kv.1)) (RunData.tags data)))
      params in
  Ok (DummyRun.with_params dummyrun params).

(** [fetch_run_details]; [client] stands for the [MlflowClient] the task
    builds from the tracking URI. *)
Definition fetch_run_details (run_cache : RunHashCache.t) (client : MlflowClient.t)
    (mlflow_runid mlflow_runname exp_name : string) : result DummyRun.t :=
  let aim_run := get_dummyrun mlflow_runid mlflow_runname exp_name run_cache in
  mlflow_run ← MlflowClient.get_run client mlflow_runid;
  aim_run ← collect_run_params aim_run mlflow_run;
  collect_metrics aim_run mlflow_run client None.

(** ** The driver loop *)

(** One iteration of the loop over the experiments: fetch every run, commit
    the batch in the order the fetches came back, persist the cache. *)
Definition convert_experiment (client : MlflowClient.t) (db_driver : CommitDriver.t)
    (ex : Experiment.t) (st : RunHashCache.t * World) : result (RunHashCache.t * World) :=
  runs ← MlflowClient.search_runs client (Experiment.experiment_id ex);
  dummy_runs ←
    mapM (fun run =>
            fetch_run_details st.1 client
              (RunInfo.run_id (MlflowRun.info run))
              (RunInfo.run_name (MlflowRun.info run))
              (Experiment.name ex))
         runs;
  let _dummy_runs := ready_order st.2 dummy_runs in
  '(run_cache, w) ← CommitDriver_commit db_driver _dummy_runs st;
  let '(run_cache, fs') := RunHashCache.refresh run_cache (fs w) in
  Ok (run_cache, with_fs w fs').

Fixpoint convert_experiments (client : MlflowClient.t) (db_driver : CommitDriver.t)
    (experiments : list Experiment.t) (st : RunHashCache.t * World)
    : result (RunHashCache.t * World) :=
  match experiments with
  | [] => Ok st
  | ex :: experiments' =>
      st' ← convert_experiment client db_driver ex st;
      convert_experiments client db_driver experiments' st'
  end.

(** [convert_existing_logs]: one full pass.  [client] stands for
    [MlflowClient(tracking_uri=tracking_uri)]. *)
Definition convert_existing_logs (repo_path : string) (client : MlflowClient.t)
    (experiment : option string) (w : World) : result World :=
  experiments ← get_mlflow_experiments client experiment;
  let '(run_cache, fs') := RunHashCache.__init__ repo_path false (fs w) in
  let db_driver := CommitDriver.__init__ repo_path 4 in
  '(_, w') ← convert_experiments client db_driver experiments (run_cache, with_fs w fs');
  Ok w'.

End WithLiteralEval.

(** ** Auxiliary definitions used in the statements and proofs *)

(** Cutting a list into consecutive pieces of the given sizes. *)
Fixpoint chunks {A} (ary : list A) (sizes : list nat) : list (list A) :=
  match sizes with
  | [] => []
  | n :: sizes' => take n ary :: chunks (drop n ary) sizes'
  end.

(** The section sizes [array_split] uses for [Ntotal] elements. *)
Definition section_sizes (Ntotal Nsections : nat) : list nat :=
  replicate (Ntotal mod Nsections) (Ntotal / Nsections + 1)
    ++ replicate (Nsections - Ntotal mod Nsections) (Ntotal / Nsections).

(** Every leaf of the tree (every value that is not a dict) is a string. *)
Fixpoint all_leaves_str (tree : pyval) : bool :=
  match tree with
  | PyDict d =>
      (fix items (d : list (string * pyval)) : bool :=
         match d with
         | [] => true
         | (_, subtree) :: d => all_leaves_str subtree && items d
         end) d
  | PyStr _ => true
  | _ => false
  end.

(** The item loops of [_map_nested_dicts] and [all_leaves_str], by name. *)
Definition map_items (fun_ : pyval -> result pyval)
    : list (string * pyval) -> result (list (string * pyval)) :=
  fix items (d : list (string * pyval)) : result (list (string * pyval)) :=
    match d with
    | [] => Ok []
    | (k, subtree) :: d =>
        v ← _map_nested_dicts fun_ subtree;
        d' ← items d;
        Ok ((k, v) :: d')
    end.

Definition all_leaves_items : list (string * pyval) -> bool :=
  fix items (d : list (string * pyval)) : bool :=
    match d with
    | [] => true
    | (_, subtree) :: d => all_leaves_str subtree && items d
    end.

(** The value found in a tree of dicts by following a path of keys. *)
Fixpoint at_path (path : list string) (tree : pyval) : option pyval :=
  match path with
  | [] => Some tree
  | k :: path' =>
      match tree with
      | PyDict d => v ← dict_get k d; at_path path' v
      | _ => None
      end
  end.

(** A cache in which every run id satisfying [ids] has a non-empty hash that
    names a record of the repository. *)
Definition cache_covers (ids : string -> Prop) (st : RunHashCache.t * World) : Prop :=
  ∀ id, ids id →
    ∃ h, RunHashCache.get st.1 id = Some h ∧ str_truthy h = true ∧ h ∈ dom (repo st.2).

(** The run ids the client lists for an experiment, and for a list of them. *)
Definition run_of (client : MlflowClient.t) (ex : Experiment.t) (id : string) : Prop :=
  ∃ runs run,
    MlflowClient.search_runs client (Experiment.experiment_id ex) = Ok runs
    ∧ run ∈ runs ∧ RunInfo.run_id (MlflowRun.info run) = id.

Definition run_of_any (client : MlflowClient.t) (experiments : list Experiment.t)
    (id : string) : Prop :=
  ∃ ex, ex ∈ experiments ∧ run_of client ex id.

(** An experiment whose runs can be listed and fetched, whatever the cache. *)
Definition fetchable (literal_eval : string -> option pyval) (client : MlflowClient.t)
    (ex : Experiment.t) : Prop :=
  ∃ runs,
    MlflowClient.search_runs client (Experiment.experiment_id ex) = Ok runs
    ∧ ∀ c, ∃ ds,
        mapM (fun run =>
                fetch_run_details literal_eval c client
                  (RunInfo.run_id (MlflowRun.info run))
                  (RunInfo.run_name (MlflowRun.info run))
                  (Experiment.name ex))
             runs = Ok ds.

(** ** A small source and destination, for concrete runs of the code *)

Module Sample.

Definition exp_a : Experiment.t := {| Experiment.experiment_id := "1"; Experiment.name := "A" |}.
Definition exp_b : Experiment.t := {| Experiment.experiment_id := "2"; Experiment.name := "B" |}.

Definition info (id name exp : string) : RunInfo.t :=
  {| RunInfo.run_id := id; RunInfo.run_name := name; RunInfo.experiment_id := exp |}.

Definition run_a1 : MlflowRun.t :=
  {| MlflowRun.info := info "a1" "first" "1";
     MlflowRun.data :=
       {| RunData.params :=
            PyDict [("lr", PyStr "42"); ("layers", PyStr "[1, 2, 3]");
                    ("opt", PyDict [("name", PyStr "hello")])];
          RunData.tags :=
            [("mlflow.note.content", "baseline"); ("team", "vision");
             ("mlflow.user", "ana"); ("mlflowish", "x")];
          RunData.metrics := [("loss", 2.0%float)] |} |}.

Definition run_a2 : MlflowRun.t :=
  {| MlflowRun.info := info "a2" "second" "1";
     MlflowRun.data :=
       {| RunData.params := PyDict [("lr", PyStr "7")];
          RunData.tags := [("team", "nlp")];
          RunData.metrics := [] |} |}.

Definition run_b1 : MlflowRun.t :=
  {| MlflowRun.info := info "b1" "third" "2";
     MlflowRun.data :=
       {| RunData.params := PyDict [];
          RunData.tags := [];
          RunData.metrics := [] |} |}.

Definition loss_history : list Metric.t :=
  [ {| Metric.key := "loss"; Metric.value := 1.0%float; Metric.timestamp := 100; Metric.step := 0 |};
    {| Metric.key := "loss"; Metric.value := 2.0%float; Metric.timestamp := 200; Metric.step := 1 |} ].

Definition runs : list MlflowRun.t := [run_a1; run_a2; run_b1].

Definition client : MlflowClient.t :=
  {| MlflowClient.search_experiments := Ok [exp_a; exp_b];
     MlflowClient.get_experiment := fun id =>
       match find (fun ex => bool_decide (Experiment.experiment_id ex = id)) [exp_a; exp_b] with
       | Some ex => Ok ex
       | None => Raise (MlflowException "RESOURCE_DOES_NOT_EXIST")
       end;
     MlflowClient.get_experiment_by_name := fun name =>
       Ok (find (fun ex => bool_decide (Experiment.name ex = name)) [exp_a; exp_b]);
     MlflowClient.search_runs := fun exp =>
       Ok (filter (fun r => RunInfo.experiment_id (MlflowRun.info r) = exp) runs);
     MlflowClient.get_run := fun id =>
       match find (fun r => bool_decide (RunInfo.run_id (MlflowRun.info r) = id)) runs with
       | Some r => Ok r
       | None => Raise (MlflowException "RESOURCE_DOES_NOT_EXIST")
       end;
     MlflowClient.get_metric_history := fun id key =>
       if bool_decide (id = "a1") && bool_decide (key = "loss") then Ok loss_history
       else Ok [] |}.

(** An empty repository; the [n]-th generated hash is ["h"] followed by [n] in
    decimal, and fetched records come back in reverse order. *)
Definition world : World :=
  {| fs := ∅; repo := ∅; uuid := fun n => "h" +:+ pretty n; drawn := 0;
     ready_order := reverse |}.

(** A clean cache as loaded from a file that holds one entry. *)
Definition cache_path : string := path_join "repo" "mlflow_logs_cache".
Definition disk : gmap string file_content :=
  {[ cache_path := JsonObject {[ "a1" := "h0" ]} ]}.
Definition loaded : RunHashCache.t := (RunHashCache.__init__ "repo" false disk).1.

End Sample.

(** ** The cache as an actor

    [RunHashCache] is a Ray actor: the calls made on it by the fetch tasks,
    the workers and the driver loop are served one at a time, in some order.
    [get] changes nothing, so a history of the actor is a list of [set] and
    [refresh] calls. *)
Inductive cache_call :=
  | CallSet (run_id hashval : string)
  | CallRefresh.

Definition cache_serve (st : RunHashCache.t * gmap string file_content) (call : cache_call)
    : RunHashCache.t * gmap string file_content :=
  match call with
  | CallSet run_id hashval => (RunHashCache.set st.1 run_id hashval, st.2)
  | CallRefresh => RunHashCache.refresh st.1 st.2
  end.

Definition cache_serve_all (calls : list cache_call)
    (st : RunHashCache.t * gmap string file_content)
    : RunHashCache.t * gmap string file_content :=
  foldl cache_serve st calls.

(** The value of the last [set(run_id, _)] among the calls, if there is one. *)
Fixpoint last_set (run_id : string) (calls : list cache_call) : option string :=
  match calls with
  | [] => None
  | CallSet k v :: calls' =>
      match last_set run_id calls' with
      | Some v' => Some v'
      | None => if decide (k = run_id) then Some v else None
      end
  | CallRefresh :: calls' => last_set run_id calls'
  end.

(** The sample of one metric history as [track] receives it. *)
Definition sample_of (m : Metric.t) : string * Z * float :=
  (Metric.key m, Metric.step m, Metric.value m).

(** The record opened by [Run] for [dummy] as it was before the commit: the
    one the repository held under [h], or a new one. *)
Definition record_before (h : string) (dummy : DummyRun.t) (w : World) : AimRun.t :=
  default (AimRun.fresh h (DummyRun.experiment dummy)) (repo w !! h).

(** ** Sources that fail *)

Module Faulty.

(** The sample source behind a connection that drops on the lookup of an
    experiment by id. *)
Definition unreachable : MlflowClient.t :=
  {| MlflowClient.search_experiments := MlflowClient.search_experiments Sample.client;
     MlflowClient.get_experiment := fun _ => Raise (RuntimeError "connection reset");
     MlflowClient.get_experiment_by_name := MlflowClient.get_experiment_by_name Sample.client;
     MlflowClient.search_runs := MlflowClient.search_runs Sample.client;
     MlflowClient.get_run := MlflowClient.get_run Sample.client;
     MlflowClient.get_metric_history := MlflowClient.get_metric_history Sample.client |}.

(** The sample source with one run, [a2], that cannot be fetched. *)
Definition one_bad_run : MlflowClient.t :=
  {| MlflowClient.search_experiments := MlflowClient.search_experiments Sample.client;
     MlflowClient.get_experiment := MlflowClient.get_experiment Sample.client;
     MlflowClient.get_experiment_by_name := MlflowClient.get_experiment_by_name Sample.client;
     MlflowClient.search_runs := MlflowClient.search_runs Sample.client;
     MlflowClient.get_run := fun id =>
       if bool_decide (id = "a2") then Raise (MlflowException "INTERNAL_ERROR")
       else MlflowClient.get_run Sample.client id;
     MlflowClient.get_metric_history := MlflowClient.get_metric_history Sample.client |}.

End Faulty.

(** ** The runs of a source *)

(** The ids of the runs the client lists for the experiments, in the order
    the pass meets them. *)
Definition source_run_ids (client : MlflowClient.t) (experiments : list Experiment.t)
    : list string :=
  experiments ≫= fun ex =>
    match MlflowClient.search_runs client (Experiment.experiment_id ex) with
    | Ok runs => (fun run => RunInfo.run_id (MlflowRun.info run)) <$> runs
    | Raise _ => []
    end.

(** The hashes Aim has still to generate are pairwise distinct and name no
    record of the repository. *)
Definition fresh_hashes (w : World) : Prop :=
  (∀ n m, (drawn w ≤ n)%nat → (drawn w ≤ m)%nat → uuid w n = uuid w m → n = m)
  ∧ (∀ n, (drawn w ≤ n)%nat → uuid w n ∉ dom (repo w)).

(** [w'] comes from [w] by opening and creating records: the same hash
    generator and hand-back order, no record removed, and every record added
    stored under one of the hashes generated in between. *)
Definition extends (w w' : World) : Prop :=
  uuid w' = uuid w ∧ ready_order w' = ready_order w
  ∧ (drawn w ≤ drawn w')%nat
  ∧ dom (repo w) ⊆ dom (repo w')
  ∧ ∀ h, h ∈ dom (repo w') →
         h ∈ dom (repo w) ∨ ∃ n, (drawn w ≤ n < drawn w')%nat ∧ h = uuid w n.

(** ** The command line: [sync]

    What is outside the source files is taken as given: [clean_repo_path] and
    [Repo.default_repo_path] of Aim, and the client that
    [MlflowClient(tracking_uri=...)] connects to.  The messages printed with
    [click.echo] are left out.  In continuous mode the command builds and
    starts the watcher and waits on it; that hand-over is the outcome
    [Watching], with the arguments the watcher is built from. *)
Inductive sync_outcome :=
  | ClickException (message : string)
  | PassFailed (e : exn)
  | Returned (w : World)
  | Watching (repo_path tracking_uri : string) (experiment : option string)
             (exclude_artifacts : list string) (w : World).

Section CommandLine.
Variable literal_eval : string -> option pyval.
Variable clean_repo_path : option string -> string.
Variable default_repo_path : string.
Variable connect : string -> MlflowClient.t.

Definition sync (aim_repo mlflow_tracking_uri experiment : option string)
    (exclude_artifacts : list string) (continuous_mode : bool)
    (environ : gmap string string) (w : World) : sync_outcome :=
  let repo_path :=
    if str_truthy (clean_repo_path aim_repo) then clean_repo_path aim_repo
    else default_repo_path in
  let mlflow_tracking_uri :=
    if truthy mlflow_tracking_uri then mlflow_tracking_uri
    else environ !! "MLFLOW_TRACKING_URI" in
  match mlflow_tracking_uri with
  | Some uri =>
      if negb (str_truthy uri) then
        ClickException "MLFlow tracking URI must be provided either through ENV or CLI."
      else
        match convert_existing_logs literal_eval repo_path (connect uri) experiment w with
        | Raise e => PassFailed e
        | Ok w' =>
            if negb continuous_mode then Returned w'
            else Watching repo_path uri experiment exclude_artifacts w'
        end
  | None =>
      ClickException "MLFlow tracking URI must be provided either through ENV or CLI."
  end.

End CommandLine.

(** * Properties *)

Close Scope string_scope.

(** ** Sequencing *)

Lemma bind_Ok {A B} (a : A) (k : A → result B) : (Ok a ≫= k) = k a.
Proof. done. Qed.

Lemma bind_Raise {A B} (e : exn) (k : A → result B) : (Raise e ≫= k) = Raise e.
Proof. done. Qed.

Lemma bind_Ok_inv {A B} (r : result A) (k : A → result B) (b : B) :
  r ≫= k = Ok b → ∃ a, r = Ok a ∧ k a = Ok b.
Proof. destruct r as [a|e]; [eauto|done]. Qed.

Lemma mapM_nil {A B} (f : A → result B) : mapM f [] = Ok [].
Proof. done. Qed.

Lemma mapM_cons {A B} (f : A → result B) (x : A) (l : list A) :
  mapM f (x :: l) = y ← f x; k ← mapM f l; Ok (y :: k).
Proof. done. Qed.

Lemma mapM_fmap {A B C} (f : B → result C) (g : A → B) (l : list A) :
  mapM f (g <$> l) = mapM (f ∘ g) l.
Proof.
  induction l as [|x l IH]; [done|].
  rewrite fmap_cons, !mapM_cons, IH. done.
Qed.

(** ** The run-hash cache *)

Lemma setitem_unfold (c : RunHashCache.t) (k v : string) :
  RunHashCache._cache (RunHashCache.set c k v) = <[k := v]> (RunHashCache._cache c).
Proof.
  unfold RunHashCache.set, RunHashCache.__setitem__.
  case_bool_decide as Hkv; simpl; [|done].
  by rewrite insert_id.
Qed.

Lemma get_set (c : RunHashCache.t) (k v run_id : string) :
  RunHashCache.get (RunHashCache.set c k v) run_id
  = if decide (k = run_id) then Some v else RunHashCache.get c run_id.
Proof.
  unfold RunHashCache.get. rewrite setitem_unfold.
  destruct (decide (k = run_id)) as [->|Hne].
  - apply lookup_insert_eq.
  - by apply lookup_insert_ne.
Qed.

Lemma set_same_noop (c : RunHashCache.t) (k v : string) :
  RunHashCache.get c k = Some v → RunHashCache.set c k v = c.
Proof.
  unfold RunHashCache.get, RunHashCache.set, RunHashCache.__setitem__.
  intros Hkv. by rewrite bool_decide_eq_true_2.
Qed.

Lemma set_cache_path (c : RunHashCache.t) (k v : string) :
  RunHashCache._cache_path (RunHashCache.set c k v) = RunHashCache._cache_path c.
Proof.
  unfold RunHashCache.set, RunHashCache.__setitem__. by case_bool_decide.
Qed.

(** C2, as the code has it: [set] is last-write-wins.  After [set(k, v)] the
    cache maps [k] to [v] whatever it held before, every other key keeps its
    entry, and a second [set(k, v)] with the same value changes nothing (the
    mapping and the dirty flag stay as they are).  A [set] that changes the
    entry of [k] (absent or different before) marks the state dirty; a [set]
    of the value the cache already holds leaves the whole state, dirty flag
    included, as it was. *)
Theorem RunHashCache_set_last_write_wins (c : RunHashCache.t) (k v : string) :
  RunHashCache.get (RunHashCache.set c k v) k = Some v
  ∧ (∀ k', k' ≠ k →
       RunHashCache.get (RunHashCache.set c k v) k' = RunHashCache.get c k')
  ∧ RunHashCache.set (RunHashCache.set c k v) k v = RunHashCache.set c k v
  ∧ RunHashCache._needs_refresh (RunHashCache.set c k v)
    = (if bool_decide (RunHashCache.get c k = Some v)
       then RunHashCache._needs_refresh c else true)
  ∧ (RunHashCache.get c k ≠ Some v →
     RunHashCache._needs_refresh (RunHashCache.set c k v) = true)
  ∧ (RunHashCache.get c k = Some v → RunHashCache.set c k v = c).
Proof.
  assert (Hget : RunHashCache.get (RunHashCache.set c k v) k = Some v).
  { unfold RunHashCache.get. rewrite setitem_unfold. apply lookup_insert_eq. }
  assert (Hflag : RunHashCache._needs_refresh (RunHashCache.set c k v)
                  = (if bool_decide (RunHashCache.get c k = Some v)
                     then RunHashCache._needs_refresh c else true)).
  { unfold RunHashCache.set, RunHashCache.__setitem__, RunHashCache.get.
    by case_bool_decide. }
  split_and!; [done| |by apply set_same_noop|done| |apply set_same_noop].
  - intros k' Hne. unfold RunHashCache.get. rewrite setitem_unfold.
    by apply lookup_insert_ne.
  - intros Hne. by rewrite Hflag, bool_decide_eq_false_2.
Qed.

(** C2 as stated fails: a mapping that is set is replaced by a later [set]
    with a different destination id. *)
Lemma RunHashCache_set_replaces :
  ¬ (∀ (c : RunHashCache.t) (k v v' : string),
       RunHashCache.get c k = Some v →
       RunHashCache.get (RunHashCache.set c k v') k = Some v).
Proof.
  intros H.
  specialize (H (RunHashCache.set Sample.loaded "a1" "h0") "a1" "h0" "h9").
  by vm_compute in H; specialize (H eq_refl).
Qed.

Lemma RunHashCache_set_last_write_wins_witness :
  RunHashCache.get Sample.loaded "a1" = Some "h0"%string
  ∧ RunHashCache._needs_refresh Sample.loaded = false
  ∧ RunHashCache.get (RunHashCache.set Sample.loaded "a1" "h9") "a1" = Some "h9"%string
  ∧ RunHashCache._needs_refresh (RunHashCache.set Sample.loaded "a1" "h9") = true
  ∧ RunHashCache.set Sample.loaded "a1" "h0" = Sample.loaded.
Proof.
  destruct (RunHashCache_set_last_write_wins Sample.loaded "a1" "h9")
    as (Hget & _ & _ & _ & Hdirty & _).
  destruct (RunHashCache_set_last_write_wins Sample.loaded "a1" "h0")
    as (_ & _ & _ & _ & _ & Hsame).
  split_and!; [reflexivity|reflexivity|exact Hget| |].
  - apply Hdirty. discriminate.
  - apply Hsame. reflexivity.
Defined.

Lemma fs_run_refresh (c : RunHashCache.t) (fs : gmap string file_content) :
  fs_run (RunHashCache.refresh_ops c) fs
  = <[RunHashCache._cache_path c := JsonObject (RunHashCache._cache c)]> fs.
Proof. unfold fs_run. simpl. apply insert_insert_eq. Qed.

(** C3, as the code has it: with the dirty flag set, [refresh] leaves the
    cache file holding the full mapping, written in place: the file is first
    truncated, then filled, so that an interruption between the two leaves it
    unreadable.  No other file changes and the mapping in memory is kept. *)
Theorem RunHashCache_refresh_writes_in_place
    (c : RunHashCache.t) (fs : gmap string file_content) :
  RunHashCache._needs_refresh c = true →
  json_load (RunHashCache.refresh c fs).2 (RunHashCache._cache_path c)
    = Some (RunHashCache._cache c)
  ∧ RunHashCache._cache (RunHashCache.refresh c fs).1 = RunHashCache._cache c
  ∧ (∀ p, p ≠ RunHashCache._cache_path c →
          (RunHashCache.refresh c fs).2 !! p = fs !! p)
  ∧ json_load (RunHashCache.refresh_interrupted 1 c fs) (RunHashCache._cache_path c)
    = None.
Proof.
  intros _. unfold RunHashCache.refresh. cbn [fst snd].
  rewrite fs_run_refresh. unfold json_load. split_and!.
  - by rewrite lookup_insert_eq.
  - done.
  - intros p Hp. by rewrite lookup_insert_ne.
  - unfold RunHashCache.refresh_interrupted, fs_run. simpl.
    by rewrite lookup_insert_eq.
Qed.

Lemma RunHashCache_refresh_writes_in_place_witness :
  let c := RunHashCache.set Sample.loaded "a2" "h1" in
  RunHashCache._needs_refresh c = true
  ∧ json_load (RunHashCache.refresh c Sample.disk).2 (RunHashCache._cache_path c)
    = Some (RunHashCache._cache c).
Proof.
  intros c. split; [reflexivity|].
  apply (RunHashCache_refresh_writes_in_place c Sample.disk). reflexivity.
Defined.

(** C3 as stated fails on each count.  A cache loaded from disk and never
    changed (the flag is not set) still has its file truncated and rewritten by
    [refresh], and an interruption after the truncation has lost what the file
    held; and after [refresh] of a changed cache the flag is still set. *)
Lemma RunHashCache_refresh_not_gated_not_atomic :
  RunHashCache._needs_refresh Sample.loaded = false
  ∧ json_load Sample.disk Sample.cache_path = Some {[ "a1" := "h0" ]}
  ∧ RunHashCache.refresh_ops Sample.loaded ≠ []
  ∧ json_load (RunHashCache.refresh_interrupted 1 Sample.loaded Sample.disk)
      Sample.cache_path = None
  ∧ RunHashCache._needs_refresh
      (RunHashCache.refresh (RunHashCache.set Sample.loaded "a2" "h1") Sample.disk).1
    = true.
Proof. by vm_compute. Qed.

(** ** Partitioning a batch among the workers *)

Section Partition.
Context {A : Type}.
Implicit Types (ary xs : list A) (sizes : list nat).

Lemma chunks_concat sizes ary :
  concat (chunks ary sizes) = take (sum_list sizes) ary.
Proof.
  revert ary. induction sizes as [|n sizes IH]; intros ary; simpl.
  - by rewrite take_0.
  - by rewrite IH, take_take_drop.
Qed.

Lemma chunks_lengths sizes ary :
  sum_list sizes ≤ length ary → length <$> chunks ary sizes = sizes.
Proof.
  revert ary. induction sizes as [|n sizes IH]; intros ary Hle; simpl in *; [done|].
  rewrite length_take_le by lia. f_equal. apply IH. rewrite length_drop. lia.
Qed.

Lemma length_chunks sizes ary : length (chunks ary sizes) = length sizes.
Proof. revert ary. induction sizes; intros; simpl; auto. Qed.

(** The slices [array_split] cuts at the running sums are the consecutive
    pieces of the section sizes. *)
Lemma slices_chunks sizes acc ary :
  (λ i, slice ary (default 0 ((acc :: cumsum acc sizes) !! i))
                  (default 0 ((acc :: cumsum acc sizes) !! S i)))
    <$> seq 0 (length sizes)
  = chunks (drop acc ary) sizes.
Proof.
  revert acc. induction sizes as [|n sizes IH]; intros acc; [done|].
  cbn [length seq fmap list_fmap chunks]. f_equal.
  - simpl. unfold slice. f_equal. lia.
  - rewrite <-fmap_S_seq, <-list_fmap_compose.
    rewrite drop_drop, <-(IH (acc + n)). done.
Qed.

Lemma section_sizes_sum Ntotal Nsections :
  Nsections ≠ 0 → sum_list (section_sizes Ntotal Nsections) = Ntotal.
Proof.
  intros Hn. unfold section_sizes. rewrite sum_list_with_app, !sum_list_replicate.
  pose proof (Nat.mod_upper_bound Ntotal Nsections Hn).
  pose proof (Nat.div_mod Ntotal Nsections Hn). nia.
Qed.

Lemma section_sizes_length Ntotal Nsections :
  Nsections ≠ 0 → length (section_sizes Ntotal Nsections) = Nsections.
Proof.
  intros Hn. unfold section_sizes. rewrite length_app, !length_replicate.
  pose proof (Nat.mod_upper_bound Ntotal Nsections Hn). lia.
Qed.

Lemma array_split_chunks ary Nsections :
  Nsections ≠ 0 →
  array_split ary Nsections = Ok (chunks ary (section_sizes (length ary) Nsections)).
Proof.
  intros Hn. unfold array_split. destruct (decide _) as [|_]; [done|].
  f_equal. cbn [app cumsum]. rewrite Nat.add_0_l.
  transitivity (chunks (drop 0 ary) (section_sizes (length ary) Nsections));
    [|by rewrite drop_0].
  rewrite <-slices_chunks, section_sizes_length by done. reflexivity.
Qed.

Lemma section_sizes_elem Ntotal Nsections n :
  n ∈ section_sizes Ntotal Nsections →
  n = Ntotal / Nsections ∨ n = Ntotal / Nsections + 1.
Proof.
  unfold section_sizes. rewrite elem_of_app, !elem_of_replicate.
  intros [[-> _]|[-> _]]; auto.
Qed.

Lemma gather_seq xs a n :
  a + n ≤ length xs → gather xs (seq a n) = Ok (take n (drop a xs)).
Proof.
  revert a. induction n as [|n IH]; intros a Hle; simpl; [by rewrite take_0|].
  destruct (lookup_lt_is_Some_2 xs a) as [x Hx]; [lia|]. rewrite Hx.
  rewrite IH by lia. simpl.
  by rewrite (drop_S _ _ _ Hx).
Qed.

(** Gathering along the pieces of [range(len(xs))] gives the pieces of [xs]. *)
Lemma gather_chunks sizes a xs :
  a + sum_list sizes ≤ length xs →
  mapM (gather xs) (chunks (drop a (seq 0 (length xs))) sizes)
  = Ok (chunks (drop a xs) sizes).
Proof.
  revert a. induction sizes as [|n sizes IH]; intros a Hle; [done|].
  simpl in Hle. cbn [chunks]. rewrite mapM_cons.
  rewrite drop_drop, IH by lia.
  rewrite drop_seq, take_seq, drop_drop.
  rewrite Nat.min_l by lia. rewrite Nat.add_0_l.
  by rewrite gather_seq by lia.
Qed.

End Partition.

Lemma mapM_lookup_seq_from {A B} (g : list A → result B) (pre works : list (list A)) :
  mapM (λ i, match (pre ++ works) !! i with
             | Some idx => g idx
             | None => Raise IndexError
             end) (seq (length pre) (length works))
  = mapM g works.
Proof.
  revert pre. induction works as [|w works IH]; intros pre; [done|].
  cbn [length seq]. rewrite !mapM_cons, list_lookup_middle by done.
  specialize (IH (pre ++ [w])).
  rewrite <-(assoc_L (++)), length_app, Nat.add_1_r in IH. simpl in IH.
  by rewrite IH.
Qed.

Lemma mapM_lookup_seq {A B} (g : list A → result B) (works : list (list A)) :
  mapM (λ i, match works !! i with
             | Some idx => g idx
             | None => Raise IndexError
             end) (seq 0 (length works))
  = mapM g works.
Proof. apply (mapM_lookup_seq_from g []). Qed.

Lemma concat_piece {A} (works : list (list A)) (i : nat) (work : list A) :
  works !! i = Some work →
  work = slice (concat works) (length (concat (take i works)))
               (length (concat (take i works)) + length work).
Proof.
  intros Hi. unfold slice.
  assert (Hc : concat works
               = concat (take i works) ++ work ++ concat (drop (S i) works)).
  { rewrite <-(take_drop_middle works i work Hi) at 1.
    by rewrite concat_app, concat_cons. }
  rewrite Hc, drop_app_length.
  replace (length (concat (take i works)) + length work
           - length (concat (take i works))) with (length work) by lia.
  by rewrite take_app_length.
Qed.

Lemma CommitDriver_works_chunks (self : CommitDriver.t) (dummy_runs : list DummyRun.t) :
  length (CommitDriver.workers self) ≠ 0 →
  CommitDriver_works self dummy_runs
  = Ok (chunks dummy_runs
          (section_sizes (length dummy_runs) (length (CommitDriver.workers self)))).
Proof.
  intros HW. unfold CommitDriver_works.
  rewrite array_split_chunks, bind_Ok by done. rewrite length_seq.
  set (sizes := section_sizes _ _).
  set (works := chunks (seq 0 _) sizes).
  assert (Hlen : length (CommitDriver.workers self) = length works).
  { unfold works, sizes. by rewrite length_chunks, section_sizes_length. }
  rewrite Hlen, mapM_lookup_seq.
  pose proof (gather_chunks sizes 0 dummy_runs) as H.
  rewrite !drop_0 in H. apply H.
  unfold sizes. by rewrite section_sizes_sum.
Qed.

(** C4: with at least one worker, [CommitDriver.commit] cuts the batch into
    one work list per worker; the lists concatenated in worker order are the
    batch, each list is a contiguous index range of the batch in its original
    order, and the lengths of any two lists differ by at most one (lists are
    empty when there are fewer records than workers).  The commit then runs
    the workers on exactly these lists. *)
Theorem CommitDriver_commit_partition
    (self : CommitDriver.t) (dummy_runs : list DummyRun.t) :
  1 ≤ length (CommitDriver.workers self) →
  ∃ works,
    CommitDriver_works self dummy_runs = Ok works
    ∧ length works = length (CommitDriver.workers self)
    ∧ concat works = dummy_runs
    ∧ (∀ i work, works !! i = Some work →
         work = slice dummy_runs (length (concat (take i works)))
                      (length (concat (take i works)) + length work))
    ∧ (∀ a b, a ∈ works → b ∈ works → length a ≤ length b + 1)
    ∧ (∀ st, CommitDriver_commit self dummy_runs st = run_workers works st).
Proof.
  intros HW. set (W := length (CommitDriver.workers self)) in *.
  assert (HW0 : W ≠ 0) by lia.
  set (sizes := section_sizes (length dummy_runs) W).
  assert (Hsum : sum_list sizes = length dummy_runs) by by apply section_sizes_sum.
  assert (Hcat : concat (chunks dummy_runs sizes) = dummy_runs).
  { by rewrite chunks_concat, Hsum, firstn_all. }
  exists (chunks dummy_runs sizes). split_and!.
  - by apply CommitDriver_works_chunks.
  - rewrite length_chunks. by apply section_sizes_length.
  - done.
  - intros i work Hi. rewrite <-Hcat at 1. by apply concat_piece.
  - intros a b Ha Hb.
    assert (Hlen : ∀ c, c ∈ chunks dummy_runs sizes →
              length c = length dummy_runs / W ∨ length c = length dummy_runs / W + 1).
    { intros c Hc. apply (section_sizes_elem (length dummy_runs) W).
      fold sizes. rewrite <-(chunks_lengths sizes dummy_runs) by lia.
      by apply list_elem_of_fmap_2. }
    destruct (Hlen a Ha), (Hlen b Hb); lia.
  - intros st. unfold CommitDriver_commit.
    by rewrite CommitDriver_works_chunks.
Qed.

Lemma CommitDriver_commit_partition_witness :
  ∃ works,
    CommitDriver_works (CommitDriver.__init__ "repo" 4)
      ((λ id, get_dummyrun id "n" "e" Sample.loaded)
         <$> ["a"; "b"; "c"; "d"; "e"; "f"]%string) = Ok works
    ∧ length works = 4.
Proof.
  destruct (CommitDriver_commit_partition (CommitDriver.__init__ "repo" 4)
              ((λ id, get_dummyrun id "n" "e" Sample.loaded)
                 <$> ["a"; "b"; "c"; "d"; "e"; "f"]%string))
    as (works & Hw & Hl & _).
  - simpl. lia.
  - exists works. split; [exact Hw|exact Hl].
Defined.

(** ** Dicts *)

Lemma dict_get_set_eq {V} (k : string) (v : V) (d : list (string * V)) :
  dict_get k (dict_set k v d) = Some v.
Proof.
  induction d as [|[k' v'] d IH]; simpl.
  - by rewrite decide_True.
  - destruct (decide (k' = k)) as [->|Hne]; simpl.
    + by rewrite decide_True.
    + by rewrite decide_False.
Qed.

Lemma dict_get_set_ne {V} (k k' : string) (v : V) (d : list (string * V)) :
  k' ≠ k → dict_get k (dict_set k' v d) = dict_get k d.
Proof.
  intros Hne. induction d as [|[k0 v0] d IH]; simpl.
  - by rewrite decide_False.
  - destruct (decide (k0 = k')) as [->|Hne']; simpl.
    + by rewrite !decide_False.
    + by rewrite IH.
Qed.

Lemma dict_get_filter_key {V} (P : string → bool) (k : string) (d : list (string * V)) :
  dict_get k (filter (λ kv, P kv.1) d) = if P k then dict_get k d else None.
Proof.
  induction d as [|[k' v] d IH]; simpl; [by destruct (P k)|].
  rewrite filter_cons. simpl.
  destruct (decide (P k')) as [HP|HP]; destruct (decide (k' = k)) as [->|Hne]; simpl.
  - rewrite decide_True by done. by destruct (P k).
  - by rewrite decide_False.
  - rewrite IH. by destruct (P k).
  - done.
Qed.

Lemma dict_get_fmap {V W} (f : V → W) (k : string) (d : list (string * V)) :
  dict_get k ((λ kv, (kv.1, f kv.2)) <$> d) = f <$> dict_get k d.
Proof.
  induction d as [|[k' v] d IH]; simpl; [done|].
  by destruct (decide (k' = k)).
Qed.

(** ** Trees of dicts *)

(** Induction on a [pyval] seen as a tree of dicts: the leaves are the values
    that are not dicts. *)
Lemma pyval_tree_ind (P : pyval → Prop) :
  (∀ v, (∀ d, v ≠ PyDict d) → P v) →
  (∀ d, Forall (λ kv, P kv.2) d → P (PyDict d)) →
  ∀ v, P v.
Proof.
  intros Hleaf Hdict. fix IH 1. intros [| | | | | | |d];
    try (by apply Hleaf).
  apply Hdict. induction d as [|[k v] d IHd]; constructor; [apply IH|apply IHd].
Qed.

Lemma map_nested_dicts_dict (f : pyval → result pyval) (d : list (string * pyval)) :
  _map_nested_dicts f (PyDict d) = d' ← map_items f d; Ok (PyDict d').
Proof. done. Qed.

Lemma map_nested_dicts_leaf (f : pyval → result pyval) (v : pyval) :
  (∀ d, v ≠ PyDict d) → _map_nested_dicts f v = f v.
Proof. intros Hv. destruct v; try done. by destruct (Hv d). Qed.

Lemma map_items_cons (f : pyval → result pyval) k v (d : list (string * pyval)) :
  map_items f ((k, v) :: d)
  = v' ← _map_nested_dicts f v; d' ← map_items f d; Ok ((k, v') :: d').
Proof. done. Qed.

Lemma all_leaves_str_dict (d : list (string * pyval)) :
  all_leaves_str (PyDict d) = all_leaves_items d.
Proof. done. Qed.

Lemma map_items_shape (f : pyval → result pyval) (d d' : list (string * pyval)) :
  map_items f d = Ok d' →
  d'.*1 = d.*1 ∧ Forall2 (λ kv kv', _map_nested_dicts f kv.2 = Ok kv'.2) d d'.
Proof.
  revert d'. induction d as [|[k v] d IH]; intros d' H.
  - injection H as <-. by split.
  - rewrite map_items_cons in H.
    apply bind_Ok_inv in H as (v' & Hv' & H).
    apply bind_Ok_inv in H as (d0 & Hd0 & [= <-]).
    destruct (IH _ Hd0) as [Hkeys Hall]. split.
    + by rewrite !fmap_cons, Hkeys.
    + by constructor.
Qed.

(** ** Recovering parameter values, for any [literal_eval] *)

Section Recovery.
Variable literal_eval : string → option pyval.

Local Abbreviation parse := (_try_parse_str literal_eval).

(** What a string leaf becomes: its value as a literal, or itself. *)
Local Abbreviation recovered s := (default (PyStr s) (literal_eval (strip s))).

Lemma try_parse_str_str (s : string) : parse (PyStr s) = Ok (recovered s).
Proof. unfold _try_parse_str. by destruct (literal_eval (strip s)). Qed.

Lemma try_parse_str_other (v : pyval) :
  (∀ s, v ≠ PyStr s) → parse v = Raise (AssertionError v).
Proof. intros Hv. destruct v; try done. by destruct (Hv s). Qed.

Lemma map_nested_total (tree : pyval) :
  all_leaves_str tree = true → ∃ v, _map_nested_dicts parse tree = Ok v.
Proof.
  induction tree as [v Hv|d IH] using pyval_tree_ind; intros Hall.
  - destruct v; try done; [|by destruct (Hv d)].
    rewrite map_nested_dicts_leaf by done.
    rewrite try_parse_str_str. eauto.
  - rewrite map_nested_dicts_dict. rewrite all_leaves_str_dict in Hall.
    assert (∃ d', map_items parse d = Ok d') as [d' ->]; [|by eauto].
    induction IH as [|[k v] d Hv _ IHd]; [by eexists|].
    simpl in Hall, Hv. apply andb_true_iff in Hall as [Hv' Hd].
    destruct (Hv Hv') as [v' Hv'']. destruct (IHd Hd) as [d' Hd'].
    rewrite map_items_cons, Hv'', bind_Ok, Hd'. by eexists.
Qed.

Lemma map_nested_raises (tree : pyval) :
  all_leaves_str tree = false →
  ∃ got, _map_nested_dicts parse tree = Raise (AssertionError got)
         ∧ ∀ s, got ≠ PyStr s.
Proof.
  induction tree as [v Hv|d IH] using pyval_tree_ind; intros Hall.
  - rewrite map_nested_dicts_leaf by done. exists v.
    assert (∀ s, v ≠ PyStr s) by (by intros s ->).
    by rewrite try_parse_str_other.
  - rewrite map_nested_dicts_dict. rewrite all_leaves_str_dict in Hall.
    assert (∃ got, map_items parse d = Raise (AssertionError got)
                   ∧ ∀ s, got ≠ PyStr s) as (got & -> & Hgot); [|by eauto].
    induction IH as [|[k v] d Hv _ IHd]; [done|].
    simpl in Hall, Hv. rewrite map_items_cons.
    destruct (all_leaves_str v) eqn:Hv'.
    + destruct (map_nested_total v Hv') as [v' ->]. rewrite bind_Ok.
      destruct (IHd Hall) as (got & -> & Hgot). eauto.
    + destruct (Hv eq_refl) as (got & -> & Hgot). eauto.
Qed.

Lemma map_nested_at_path (tree v : pyval) :
  _map_nested_dicts parse tree = Ok v →
  ∀ path s, at_path path tree = Some (PyStr s) →
            at_path path v = Some (recovered s).
Proof.
  revert v. induction tree as [t Ht|d IH] using pyval_tree_ind; intros v Hmap path s Hpath.
  - rewrite map_nested_dicts_leaf in Hmap by done.
    destruct path as [|k path]; [|by destruct t].
    simpl in Hpath. injection Hpath as ->.
    rewrite try_parse_str_str in Hmap. injection Hmap as <-.
    simpl. done.
  - rewrite map_nested_dicts_dict in Hmap.
    apply bind_Ok_inv in Hmap as (d' & Hd' & [= <-]).
    destruct path as [|k path]; [done|]. simpl in *.
    revert d' Hd' Hpath. induction IH as [|[k0 v0] d Hv0 _ IHd]; intros d' Hd' Hpath; [done|].
    rewrite map_items_cons in Hd'. simpl in Hv0.
    apply bind_Ok_inv in Hd' as (v0' & Hv0' & Hd').
    apply bind_Ok_inv in Hd' as (d0' & Hd0' & [= <-]).
    simpl in *. destruct (decide (k0 = k)) as [->|Hne]; simpl in *; eauto.
Qed.

Lemma collect_run_params_inv (dummyrun : DummyRun.t) (mlflow_run : MlflowRun.t)
    (d : DummyRun.t) :
  collect_run_params literal_eval dummyrun mlflow_run = Ok d →
  ∃ parsed,
    _map_nested_dicts parse (RunData.params (MlflowRun.data mlflow_run)) = Ok parsed
    ∧ d = DummyRun.with_params dummyrun
            (dict_set "tags"
               (PyDict ((λ kv, (kv.1, PyStr kv.2)) <$>
                          filter (λ kv, negb (startswith "mlflow" kv.1))
                                 (RunData.tags (MlflowRun.data mlflow_run))))
            (dict_set "params" parsed
            (dict_set "description"
               (of_optional_str
                  (dict_get "mlflow.note.content"
                     (RunData.tags (MlflowRun.data mlflow_run))))
            (dict_set "mlflow_experiment_id"
               (PyStr (RunInfo.experiment_id (MlflowRun.info mlflow_run)))
            (dict_set "mlflow_run_id"
               (PyStr (RunInfo.run_id (MlflowRun.info mlflow_run)))
            (dict_set "mlflow_run_id"
               (PyStr (RunInfo.run_id (MlflowRun.info mlflow_run)))
               (DummyRun.params dummyrun))))))).
Proof.
  unfold collect_run_params. intros H.
  apply bind_Ok_inv in H as (parsed & Hparsed & [= <-]). eauto.
Qed.

(** C5: a string parameter is replaced by the value of the literal it spells
    and kept as it is when it spells none, at every depth of nested mappings.
    With [literal_eval] reading ["42"] as 42 and ["[1, 2, 3]"] as a list and
    rejecting ["hello"]: ["42"] recovers as the integer 42, ["[1, 2, 3]"] as a
    list of three elements, ["hello"] stays the string; every string leaf of
    the parameter tree, under any path of keys, is recovered in this way, and
    the recovered tree is what the transfer record holds under ["params"].
    The recovery goes through the nested mappings: on a tree whose leaves are
    all strings it returns, a mapping comes back as a mapping with the same
    keys in the same order, and the three examples are recovered where they
    sit, one of them at the top and two inside a nested mapping. *)
Theorem parameter_type_recovery :
  literal_eval "42" = Some (PyInt 42) →
  literal_eval "[1, 2, 3]" = Some (PyList [PyInt 1; PyInt 2; PyInt 3]) →
  literal_eval "hello" = None →
  parse (PyStr "42") = Ok (PyInt 42)
  ∧ (∃ l, parse (PyStr "[1, 2, 3]") = Ok (PyList l) ∧ length l = 3)
  ∧ parse (PyStr "hello") = Ok (PyStr "hello")
  ∧ (∀ s v, literal_eval (strip s) = Some v → parse (PyStr s) = Ok v)
  ∧ (∀ s, literal_eval (strip s) = None → parse (PyStr s) = Ok (PyStr s))
  ∧ (∀ tree v path s,
       _map_nested_dicts parse tree = Ok v →
       at_path path tree = Some (PyStr s) →
       at_path path v = Some (recovered s))
  ∧ (∀ dummyrun mlflow_run d,
       collect_run_params literal_eval dummyrun mlflow_run = Ok d →
       ∃ v, _map_nested_dicts parse (RunData.params (MlflowRun.data mlflow_run)) = Ok v
            ∧ dict_get "params" (DummyRun.params d) = Some v)
  ∧ (∀ tree, all_leaves_str tree = true →
       ∃ v, _map_nested_dicts parse tree = Ok v
            ∧ ∀ path s, at_path path tree = Some (PyStr s) →
                        at_path path v = Some (recovered s))
  ∧ (∀ d v, _map_nested_dicts parse (PyDict d) = Ok v →
       ∃ d', v = PyDict d' ∧ d'.*1 = d.*1
             ∧ Forall2 (λ kv kv', _map_nested_dicts parse kv.2 = Ok kv'.2) d d')
  ∧ _map_nested_dicts parse
      (PyDict [("lr", PyStr "42");
               ("opt", PyDict [("name", PyStr "hello");
                               ("layers", PyStr "[1, 2, 3]")])]%string)
    = Ok (PyDict [("lr", PyInt 42);
                  ("opt", PyDict [("name", PyStr "hello");
                                  ("layers", PyList [PyInt 1; PyInt 2; PyInt 3])])]%string)
  ∧ (∀ dummyrun mlflow_run,
       all_leaves_str (RunData.params (MlflowRun.data mlflow_run)) = true →
       ∃ d v,
         collect_run_params literal_eval dummyrun mlflow_run = Ok d
         ∧ _map_nested_dicts parse (RunData.params (MlflowRun.data mlflow_run)) = Ok v
         ∧ dict_get "params" (DummyRun.params d) = Some v).
Proof.
  intros H42 Hlist Hhello.
  assert (P42 : parse (PyStr "42") = Ok (PyInt 42)).
  { rewrite try_parse_str_str. change (strip "42") with "42"%string. by rewrite H42. }
  assert (Plist : parse (PyStr "[1, 2, 3]") = Ok (PyList [PyInt 1; PyInt 2; PyInt 3])).
  { rewrite try_parse_str_str. change (strip "[1, 2, 3]") with "[1, 2, 3]"%string.
    by rewrite Hlist. }
  assert (Phello : parse (PyStr "hello") = Ok (PyStr "hello")).
  { rewrite try_parse_str_str. change (strip "hello") with "hello"%string.
    by rewrite Hhello. }
  split_and!.
  - done.
  - eexists. by rewrite Plist.
  - done.
  - intros s v Hs. by rewrite try_parse_str_str, Hs.
  - intros s Hs. by rewrite try_parse_str_str, Hs.
  - intros tree v path s Hv Hp. by eapply map_nested_at_path.
  - intros dummyrun mlflow_run d Hd.
    apply collect_run_params_inv in Hd as (parsed & Hparsed & ->).
    exists parsed. split; [done|]. simpl.
    rewrite dict_get_set_ne by done. by rewrite dict_get_set_eq.
  - intros tree Hall. destruct (map_nested_total tree Hall) as [v Hv].
    exists v. split; [done|]. by apply map_nested_at_path.
  - intros d v H. rewrite map_nested_dicts_dict in H.
    apply bind_Ok_inv in H as (d' & Hd' & [= <-]).
    exists d'. split; [done|]. by apply map_items_shape.
  - rewrite map_nested_dicts_dict, !map_items_cons.
    rewrite (map_nested_dicts_leaf _ (PyStr "42")), P42, bind_Ok by done.
    rewrite map_nested_dicts_dict, !map_items_cons.
    rewrite (map_nested_dicts_leaf _ (PyStr "hello")), Phello, bind_Ok by done.
    rewrite (map_nested_dicts_leaf _ (PyStr "[1, 2, 3]")), Plist, bind_Ok by done.
    done.
  - intros dummyrun mlflow_run Hall.
    destruct (map_nested_total _ Hall) as [v Hv].
    eexists _, v. unfold collect_run_params. rewrite Hv, !bind_Ok.
    split; [reflexivity|]. split; [done|]. simpl.
    rewrite dict_get_set_ne by done. by rewrite dict_get_set_eq.
Qed.

(** C10: [_try_parse_str] returns for every string (the parsed value, or the
    string itself) and raises [AssertionError] for every other value.  Hence
    on a parameter mapping whose leaves are all strings the recovery returns,
    with every leaf parsed or kept; and on a mapping with a leaf that is not a
    string it raises [AssertionError] on such a leaf, which
    [collect_run_params] lets through. *)
Theorem try_parse_str_asserts_str :
  (∀ s, ∃ v, parse (PyStr s) = Ok v
             ∧ (literal_eval (strip s) = Some v ∨ v = PyStr s))
  ∧ (∀ v, (∀ s, v ≠ PyStr s) → parse v = Raise (AssertionError v))
  ∧ (∀ tree, all_leaves_str tree = true →
       ∃ v, _map_nested_dicts parse tree = Ok v
            ∧ ∀ path s, at_path path tree = Some (PyStr s) →
                        at_path path v = Some (recovered s))
  ∧ (∀ tree, all_leaves_str tree = false →
       ∃ got, _map_nested_dicts parse tree = Raise (AssertionError got)
              ∧ ∀ s, got ≠ PyStr s)
  ∧ (∀ dummyrun mlflow_run,
       all_leaves_str (RunData.params (MlflowRun.data mlflow_run)) = false →
       ∃ got, collect_run_params literal_eval dummyrun mlflow_run
              = Raise (AssertionError got)).
Proof.
  split_and!.
  - intros s. rewrite try_parse_str_str. eexists. split; [done|].
    destruct (literal_eval (strip s)); simpl; auto.
  - apply try_parse_str_other.
  - intros tree Hall. destruct (map_nested_total tree Hall) as [v Hv].
    exists v. split; [done|]. by apply map_nested_at_path.
  - apply map_nested_raises.
  - intros dummyrun mlflow_run Hall.
    destruct (map_nested_raises _ Hall) as (got & Hgot & _).
    exists got. unfold collect_run_params. by rewrite Hgot.
Qed.

End Recovery.

Lemma parameter_type_recovery_witness :
  _try_parse_str Literal.eval (PyStr "42") = Ok (PyInt 42)
  ∧ _map_nested_dicts (_try_parse_str Literal.eval)
      (PyDict [("lr", PyStr "42");
               ("opt", PyDict [("name", PyStr "hello");
                               ("layers", PyStr "[1, 2, 3]")])]%string)
    = Ok (PyDict [("lr", PyInt 42);
                  ("opt", PyDict [("name", PyStr "hello");
                                  ("layers", PyList [PyInt 1; PyInt 2; PyInt 3])])]%string).
Proof.
  destruct (parameter_type_recovery Literal.eval eq_refl eq_refl eq_refl)
    as (H42 & _ & _ & _ & _ & _ & _ & _ & _ & Hnested & _).
  split; [exact H42|exact Hnested].
Defined.

Lemma try_parse_str_asserts_str_witness :
  (∃ v, _map_nested_dicts (_try_parse_str Literal.eval)
          (RunData.params (MlflowRun.data Sample.run_a1)) = Ok v
        ∧ ∀ path s,
            at_path path (RunData.params (MlflowRun.data Sample.run_a1)) = Some (PyStr s) →
            at_path path v = Some (default (PyStr s) (Literal.eval (strip s))))
  ∧ (∃ got, _map_nested_dicts (_try_parse_str Literal.eval)
              (PyDict [("lr", PyStr "1"); ("depth", PyInt 3)]%string)
            = Raise (AssertionError got)
            ∧ ∀ s, got ≠ PyStr s).
Proof.
  destruct (try_parse_str_asserts_str Literal.eval) as (_ & _ & Hok & Herr & _).
  split; [apply Hok|apply Herr]; reflexivity.
Defined.

(** ** Experiment resolution and the derived parameters *)

Section Fetching.
Variable literal_eval : string → option pyval.

(** C6: without a selector, the experiments are all those the client's search
    returns.  With a selector, the lookup by id is tried first and its result
    used; when it raises [MlflowException] the lookup by name is used; and
    when that one finds nothing, [RuntimeError] (not found) is raised, which
    [convert_existing_logs] does not catch: the pass ends with that error,
    whatever the repository and the files, and no world comes out of it. *)
Theorem experiment_resolution (client : MlflowClient.t) :
  get_mlflow_experiments client None = MlflowClient.search_experiments client
  ∧ (∀ e ex,
       MlflowClient.get_experiment client e = Ok ex →
       get_mlflow_experiments client (Some e) = Ok [ex])
  ∧ (∀ e msg ex,
       MlflowClient.get_experiment client e = Raise (MlflowException msg) →
       MlflowClient.get_experiment_by_name client e = Ok (Some ex) →
       get_mlflow_experiments client (Some e) = Ok [ex])
  ∧ (∀ e msg,
       MlflowClient.get_experiment client e = Raise (MlflowException msg) →
       MlflowClient.get_experiment_by_name client e = Ok None →
       get_mlflow_experiments client (Some e) = Raise (RuntimeError (not_found_message e))
       ∧ ∀ repo_path w,
           convert_existing_logs literal_eval repo_path client (Some e) w
           = Raise (RuntimeError (not_found_message e))).
Proof.
  split_and!.
  - done.
  - intros e ex Hid. unfold get_mlflow_experiments. by rewrite Hid.
  - intros e msg ex Hid Hname. unfold get_mlflow_experiments. by rewrite Hid, Hname.
  - intros e msg Hid Hname.
    assert (Hres : get_mlflow_experiments client (Some e)
                   = Raise (RuntimeError (not_found_message e))).
    { unfold get_mlflow_experiments. by rewrite Hid, Hname. }
    split; [done|]. intros repo_path w.
    unfold convert_existing_logs. by rewrite Hres.
Qed.

(** C7: the transfer record holds, under ["tags"], the tags of the source run
    whose key does not start with ["mlflow"], in their order, each with its
    key and its value unchanged; a key with that prefix is not in it. *)
Theorem tags_without_reserved_prefix
    (dummyrun : DummyRun.t) (mlflow_run : MlflowRun.t) (d : DummyRun.t) :
  collect_run_params literal_eval dummyrun mlflow_run = Ok d →
  ∃ tags',
    dict_get "tags" (DummyRun.params d) = Some (PyDict tags')
    ∧ tags' = (λ kv, (kv.1, PyStr kv.2)) <$>
                filter (λ kv, negb (startswith "mlflow" kv.1))
                       (RunData.tags (MlflowRun.data mlflow_run))
    ∧ (∀ k, startswith "mlflow" k = true → dict_get k tags' = None)
    ∧ (∀ k, startswith "mlflow" k = false →
            dict_get k tags'
            = PyStr <$> dict_get k (RunData.tags (MlflowRun.data mlflow_run))).
Proof.
  intros Hd. apply collect_run_params_inv in Hd as (parsed & _ & ->).
  eexists. split; [|split; [reflexivity|]].
  - simpl. by rewrite dict_get_set_eq.
  - split; intros k Hk;
      rewrite dict_get_fmap, (dict_get_filter_key (λ k, negb (startswith "mlflow" k)));
      by rewrite Hk.
Qed.

(** C8, as the code has it: the parameters of the transfer record always hold
    the source run id, the source experiment id and an entry ["description"];
    that entry is the note of the source run when it has one and [None]
    otherwise. *)
Theorem derived_parameters
    (dummyrun : DummyRun.t) (mlflow_run : MlflowRun.t) (d : DummyRun.t) :
  collect_run_params literal_eval dummyrun mlflow_run = Ok d →
  dict_get "mlflow_run_id" (DummyRun.params d)
    = Some (PyStr (RunInfo.run_id (MlflowRun.info mlflow_run)))
  ∧ dict_get "mlflow_experiment_id" (DummyRun.params d)
    = Some (PyStr (RunInfo.experiment_id (MlflowRun.info mlflow_run)))
  ∧ dict_get "description" (DummyRun.params d)
    = Some (of_optional_str
              (dict_get "mlflow.note.content" (RunData.tags (MlflowRun.data mlflow_run)))).
Proof.
  intros Hd. apply collect_run_params_inv in Hd as (parsed & _ & ->).
  simpl. split_and!.
  - rewrite !dict_get_set_ne by done. by rewrite dict_get_set_eq.
  - rewrite !dict_get_set_ne by done. by rewrite dict_get_set_eq.
  - rewrite !dict_get_set_ne by done. by rewrite dict_get_set_eq.
Qed.

End Fetching.

Lemma experiment_resolution_witness :
  convert_existing_logs Literal.eval "repo" Sample.client (Some "C"%string) Sample.world
  = Raise (RuntimeError (not_found_message "C")).
Proof.
  destruct (experiment_resolution Literal.eval Sample.client) as (_ & _ & _ & H).
  apply (H "C"%string "RESOURCE_DOES_NOT_EXIST"%string); reflexivity.
Defined.

Lemma tags_without_reserved_prefix_witness :
  ∃ tags',
    dict_get "tags"
      (DummyRun.params
         (DummyRun.with_params (get_dummyrun "a1" "first" "A" Sample.loaded)
            [("mlflow_run_id", PyStr "a1"); ("mlflow_experiment_id", PyStr "1");
             ("description", PyStr "baseline");
             ("params",
              PyDict [("lr", PyInt 42); ("layers", PyList [PyInt 1; PyInt 2; PyInt 3]);
                      ("opt", PyDict [("name", PyStr "hello")])]);
             ("tags", PyDict [("team", PyStr "vision")])]%string))
    = Some (PyDict tags')
    ∧ tags' = [("team", PyStr "vision")]%string.
Proof.
  destruct (tags_without_reserved_prefix Literal.eval
              (get_dummyrun "a1" "first" "A" Sample.loaded) Sample.run_a1 _ eq_refl)
    as (tags' & Hget & Heq & _).
  exists tags'. split; [exact Hget|exact Heq].
Defined.

Lemma derived_parameters_witness :
  ∃ d, collect_run_params Literal.eval (get_dummyrun "a1" "first" "A" Sample.loaded)
         Sample.run_a1 = Ok d
       ∧ dict_get "description" (DummyRun.params d) = Some (PyStr "baseline").
Proof.
  eexists. split; [reflexivity|].
  apply (derived_parameters Literal.eval
           (get_dummyrun "a1" "first" "A" Sample.loaded) Sample.run_a1). reflexivity.
Defined.

(** C8 as stated fails: a source run without a note still gets a
    ["description"] entry, holding [None]. *)
Lemma description_entry_without_note :
  ∃ d, collect_run_params Literal.eval (get_dummyrun "b1" "third" "B" Sample.loaded)
         Sample.run_b1 = Ok d
       ∧ dict_get "mlflow.note.content" (RunData.tags (MlflowRun.data Sample.run_b1)) = None
       ∧ dict_get "description" (DummyRun.params d) = Some PyNone.
Proof. eexists. split_and!; reflexivity. Qed.

(** ** Committing transfer records *)

Lemma hash_foldl_setitem (kvs : list (string * pyval)) (r : AimRun.t) :
  AimRun.hash (foldl (λ r kv, AimRun.setitem r kv.1 kv.2) r kvs) = AimRun.hash r.
Proof. revert r. induction kvs as [|kv kvs IH]; intros r; simpl; [done|by rewrite IH]. Qed.

Lemma hash_track_history (ms : list Metric.t) (r : AimRun.t) :
  AimRun.hash (track_history r ms) = AimRun.hash r.
Proof.
  unfold track_history. revert r.
  induction ms as [|m ms IH]; intros r; simpl; [done|by rewrite IH].
Qed.

Lemma hash_foldl_track (kvs : list (string * list Metric.t)) (r : AimRun.t) :
  AimRun.hash (foldl (λ r kv, track_history r kv.2) r kvs) = AimRun.hash r.
Proof.
  revert r. induction kvs as [|kv kvs IH]; intros r; simpl; [done|].
  by rewrite IH, hash_track_history.
Qed.

(** What [commit_dummy_run] does to the world, by the two ways of opening the
    record. *)
Lemma commit_dummy_run_inv (dummy : DummyRun.t) (w : World) (r : AimRun.t) (w' : World) :
  commit_dummy_run dummy w = Ok (r, w') →
  fs w' = fs w ∧ uuid w' = uuid w ∧ ready_order w' = ready_order w
  ∧ repo w' = <[AimRun.hash r := r]> (repo w)
  ∧ match DummyRun.run_hash dummy with
    | Some h => AimRun.hash r = h ∧ h ∈ dom (repo w) ∧ drawn w' = drawn w
    | None => AimRun.hash r = uuid w (drawn w) ∧ drawn w' = S (drawn w)
    end.
Proof.
  unfold commit_dummy_run, Run. intros H.
  destruct (DummyRun.run_hash dummy) as [h|].
  - destruct (repo w !! h) as [r0|] eqn:Hh; [|done].
    simpl in H. injection H as <- <-. simpl.
    rewrite hash_foldl_track, hash_foldl_setitem. simpl.
    split_and!; try done. apply elem_of_dom. eauto.
  - simpl in H. injection H as <- <-. simpl.
    rewrite hash_foldl_track, hash_foldl_setitem. simpl. done.
Qed.

(** A record whose hash is cached and present is reopened: no record is
    added and no hash is drawn. *)
Lemma commit_dummy_run_reopens (dummy : DummyRun.t) (w : World) (h : string) :
  DummyRun.run_hash dummy = Some h → h ∈ dom (repo w) →
  ∃ r w', commit_dummy_run dummy w = Ok (r, w')
          ∧ AimRun.hash r = h
          ∧ dom (repo w') = dom (repo w) ∧ drawn w' = drawn w
          ∧ fs w' = fs w ∧ uuid w' = uuid w ∧ ready_order w' = ready_order w.
Proof.
  intros Hh Hin. apply elem_of_dom in Hin as [r0 Hr0].
  destruct (commit_dummy_run dummy w) as [[r w']|e] eqn:Hc.
  - pose proof (commit_dummy_run_inv _ _ _ _ Hc) as (Hfs & Hu & Ho & Hrepo & Hcase).
    rewrite Hh in Hcase. destruct Hcase as (Hr & Hdom & Hdrawn).
    exists r, w'. split_and!; try done.
    rewrite Hrepo, Hr, dom_insert_L.
    apply subseteq_union_1_L, singleton_subseteq_l, elem_of_dom. eauto.
  - unfold commit_dummy_run, Run in Hc. by rewrite Hh, Hr0 in Hc.
Qed.

(** A record without a hash is created under the next generated hash. *)
Lemma commit_dummy_run_creates (dummy : DummyRun.t) (w : World) :
  DummyRun.run_hash dummy = None →
  ∃ r w', commit_dummy_run dummy w = Ok (r, w')
          ∧ AimRun.hash r = uuid w (drawn w)
          ∧ dom (repo w') = {[uuid w (drawn w)]} ∪ dom (repo w)
          ∧ drawn w' = S (drawn w).
Proof.
  intros Hh.
  destruct (commit_dummy_run dummy w) as [[r w']|e] eqn:Hc.
  - pose proof (commit_dummy_run_inv _ _ _ _ Hc) as (Hfs & Hu & Ho & Hrepo & Hcase).
    rewrite Hh in Hcase. destruct Hcase as (Hr & Hdrawn).
    exists r, w'. split_and!; try done. by rewrite Hrepo, Hr, dom_insert_L.
  - unfold commit_dummy_run, Run in Hc. by rewrite Hh in Hc.
Qed.

Lemma CommitWorker_commit_app (runs1 runs2 : list DummyRun.t)
    (st : RunHashCache.t * World) :
  CommitWorker_commit (runs1 ++ runs2) st
  = st' ← CommitWorker_commit runs1 st; CommitWorker_commit runs2 st'.
Proof.
  revert st. induction runs1 as [|d runs1 IH]; intros st; simpl; [done|].
  destruct (commit_dummy_run d st.2) as [[r w]|e]; simpl; [|done]. apply IH.
Qed.

Lemma run_workers_concat (works : list (list DummyRun.t)) (st : RunHashCache.t * World) :
  run_workers works st = CommitWorker_commit (concat works) st.
Proof.
  revert st. induction works as [|work works IH]; intros st; simpl; [done|].
  rewrite CommitWorker_commit_app.
  destruct (CommitWorker_commit work st); simpl; [apply IH|done].
Qed.

(** With workers, the driver commits the batch in its order. *)
Lemma CommitDriver_commit_batch (self : CommitDriver.t) (dummy_runs : list DummyRun.t)
    (st : RunHashCache.t * World) :
  1 ≤ length (CommitDriver.workers self) →
  CommitDriver_commit self dummy_runs st = CommitWorker_commit dummy_runs st.
Proof.
  intros HW. unfold CommitDriver_commit.
  rewrite CommitDriver_works_chunks, bind_Ok, run_workers_concat by lia.
  rewrite chunks_concat, section_sizes_sum by lia. by rewrite firstn_all.
Qed.

(** ** Fetched records *)

Lemma get_dummyrun_run_id (run_id run_name exp : string) (c : RunHashCache.t) :
  DummyRun.run_id (get_dummyrun run_id run_name exp c) = run_id.
Proof. unfold get_dummyrun. by destruct (truthy _). Qed.

Lemma get_dummyrun_run_hash (run_id run_name exp : string) (c : RunHashCache.t) :
  DummyRun.run_hash (get_dummyrun run_id run_name exp c)
  = if truthy (RunHashCache.get c run_id) then RunHashCache.get c run_id else None.
Proof. unfold get_dummyrun. by destruct (truthy _). Qed.

Lemma collect_metrics_keys_frame (keys : list string) (d : DummyRun.t)
    (run : MlflowRun.t) (client : MlflowClient.t) (ts : option Z) (d' : DummyRun.t) :
  collect_metrics_keys keys d run client ts = Ok d' →
  DummyRun.run_id d' = DummyRun.run_id d ∧ DummyRun.run_hash d' = DummyRun.run_hash d.
Proof.
  revert d. induction keys as [|key keys IH]; intros d H; simpl in H.
  - by injection H as <-.
  - apply bind_Ok_inv in H as (mh & _ & H). by apply IH in H.
Qed.

(** Whether the metric histories can be collected does not depend on the
    record they are collected into. *)
Lemma collect_metrics_keys_any (keys : list string) (d1 d2 : DummyRun.t)
    (run : MlflowRun.t) (client : MlflowClient.t) (ts : option Z) (d1' : DummyRun.t) :
  collect_metrics_keys keys d1 run client ts = Ok d1' →
  ∃ d2', collect_metrics_keys keys d2 run client ts = Ok d2'.
Proof.
  revert d1 d2. induction keys as [|key keys IH]; intros d1 d2 H; simpl in *.
  - eauto.
  - apply bind_Ok_inv in H as (mh & -> & H). rewrite bind_Ok. eauto.
Qed.

Section Pass.
Variable literal_eval : string → option pyval.

Local Abbreviation fetch := (fetch_run_details literal_eval).

Lemma fetch_run_details_frame (c : RunHashCache.t) (client : MlflowClient.t)
    (id name exp : string) (d : DummyRun.t) :
  fetch c client id name exp = Ok d →
  DummyRun.run_id d = id
  ∧ DummyRun.run_hash d
    = if truthy (RunHashCache.get c id) then RunHashCache.get c id else None.
Proof.
  unfold fetch_run_details. intros H.
  apply bind_Ok_inv in H as (run & _ & H).
  apply bind_Ok_inv in H as (d0 & Hd0 & H).
  apply collect_run_params_inv in Hd0 as (parsed & _ & ->).
  apply collect_metrics_keys_frame in H as [-> ->]. simpl.
  by rewrite get_dummyrun_run_id, get_dummyrun_run_hash.
Qed.

(** Whether a run can be fetched does not depend on the cache. *)
Lemma fetch_run_details_any (c1 c2 : RunHashCache.t) (client : MlflowClient.t)
    (id name exp : string) (d1 : DummyRun.t) :
  fetch c1 client id name exp = Ok d1 → ∃ d2, fetch c2 client id name exp = Ok d2.
Proof.
  unfold fetch_run_details. intros H.
  apply bind_Ok_inv in H as (run & -> & H). rewrite bind_Ok.
  apply bind_Ok_inv in H as (d0 & Hd0 & H).
  apply collect_run_params_inv in Hd0 as (parsed & Hparsed & ->).
  unfold collect_run_params. rewrite Hparsed, !bind_Ok.
  unfold collect_metrics in *. by eapply collect_metrics_keys_any.
Qed.

Lemma mapM_fetch_any (c1 c2 : RunHashCache.t) (client : MlflowClient.t) (exp : string)
    (runs : list MlflowRun.t) (ds1 : list DummyRun.t) :
  mapM (λ run, fetch c1 client (RunInfo.run_id (MlflowRun.info run))
                 (RunInfo.run_name (MlflowRun.info run)) exp) runs = Ok ds1 →
  ∃ ds2,
    mapM (λ run, fetch c2 client (RunInfo.run_id (MlflowRun.info run))
                   (RunInfo.run_name (MlflowRun.info run)) exp) runs = Ok ds2.
Proof.
  revert ds1. induction runs as [|run runs IH]; intros ds1 H; [by eexists|].
  rewrite mapM_cons in H |- *.
  apply bind_Ok_inv in H as (d & Hd & H).
  apply bind_Ok_inv in H as (ds & Hds & _).
  destruct (fetch_run_details_any c1 c2 _ _ _ _ _ Hd) as [d2 ->].
  destruct (IH _ Hds) as [ds2 ->]. by eexists.
Qed.

(** The records fetched for a list of runs: one per run, in order, each with
    the id of its run and the hash the cache holds for it when that is not
    empty. *)
Lemma mapM_fetch_frame (c : RunHashCache.t) (client : MlflowClient.t) (exp : string)
    (runs : list MlflowRun.t) (ds : list DummyRun.t) :
  mapM (λ run, fetch c client (RunInfo.run_id (MlflowRun.info run))
                 (RunInfo.run_name (MlflowRun.info run)) exp) runs = Ok ds →
  DummyRun.run_id <$> ds = (λ run, RunInfo.run_id (MlflowRun.info run)) <$> runs
  ∧ Forall (λ d, DummyRun.run_hash d
                 = if truthy (RunHashCache.get c (DummyRun.run_id d))
                   then RunHashCache.get c (DummyRun.run_id d) else None) ds.
Proof.
  revert ds. induction runs as [|run runs IH]; intros ds H.
  - injection H as <-. by split.
  - rewrite mapM_cons in H.
    apply bind_Ok_inv in H as (d & Hd & H).
    apply bind_Ok_inv in H as (ds' & Hds & [= <-]).
    apply fetch_run_details_frame in Hd as [Hid Hhash].
    destruct (IH _ Hds) as [Hids Hall]. split.
    + by rewrite !fmap_cons, Hid, Hids.
    + constructor; [by rewrite Hid|done].
Qed.

(** ** One pass, and a second one *)

Lemma cache_covers_weaken (P Q : string → Prop) (st : RunHashCache.t * World) :
  (∀ id, P id → Q id) → cache_covers Q st → cache_covers P st.
Proof. intros HPQ HQ id Hid. by apply HQ, HPQ. Qed.

(** Committing one record and caching its hash extends the coverage of the
    cache to the id of that record. *)
Lemma commit_step_covers (ids : string → Prop) (d : DummyRun.t)
    (c : RunHashCache.t) (w : World) (r : AimRun.t) (w' : World) :
  (∀ n, str_truthy (uuid w n) = true) →
  (∀ h, DummyRun.run_hash d = Some h → str_truthy h = true) →
  commit_dummy_run d w = Ok (r, w') →
  cache_covers ids (c, w) →
  cache_covers (λ id, ids id ∨ id = DummyRun.run_id d)
    (RunHashCache.set c (DummyRun.run_id d) (AimRun.hash r), w').
Proof.
  intros Huuid Hhash Hc Hcov id Hid.
  apply commit_dummy_run_inv in Hc as (_ & _ & _ & Hrepo & Hcase).
  assert (Hr : str_truthy (AimRun.hash r) = true).
  { destruct (DummyRun.run_hash d) as [h|].
    - destruct Hcase as (-> & _). by apply Hhash.
    - destruct Hcase as (-> & _). apply Huuid. }
  assert (Hget : RunHashCache.get
                   (RunHashCache.set c (DummyRun.run_id d) (AimRun.hash r))
                   (DummyRun.run_id d) = Some (AimRun.hash r))
    by (by rewrite get_set, decide_True).
  assert (Hother : ∀ k', k' ≠ DummyRun.run_id d →
            RunHashCache.get (RunHashCache.set c (DummyRun.run_id d) (AimRun.hash r)) k'
            = RunHashCache.get c k')
    by (intros k' Hk'; by rewrite get_set, decide_False).
  simpl. rewrite Hrepo, dom_insert_L.
  destruct (decide (id = DummyRun.run_id d)) as [->|Hne].
  - exists (AimRun.hash r). split_and!; [done|done|].
    by apply elem_of_union_l, elem_of_singleton.
  - destruct Hid as [Hid|Hid]; [|done].
    destruct (Hcov id Hid) as (h & Hh & Ht & Hin). simpl in *.
    exists h. rewrite Hother by done. split_and!; [done|done|].
    by apply elem_of_union_r.
Qed.

Lemma CommitWorker_commit_covers (runs : list DummyRun.t) (ids : string → Prop)
    (st st' : RunHashCache.t * World) :
  (∀ n, str_truthy (uuid st.2 n) = true) →
  Forall (λ d, ∀ h, DummyRun.run_hash d = Some h → str_truthy h = true) runs →
  CommitWorker_commit runs st = Ok st' →
  cache_covers ids st →
  cache_covers (λ id, ids id ∨ id ∈ DummyRun.run_id <$> runs) st'
  ∧ uuid st'.2 = uuid st.2 ∧ ready_order st'.2 = ready_order st.2
  ∧ fs st'.2 = fs st.2
  ∧ RunHashCache._cache_path st'.1 = RunHashCache._cache_path st.1.
Proof.
  revert ids st. induction runs as [|d runs IH]; intros ids [c w] Huuid Hhash H Hcov.
  - simpl in H. injection H as <-. split_and!; try done.
    eapply cache_covers_weaken; [|done]. intros id [?|Hin]; [done|].
    by apply elem_of_nil in Hin.
  - cbn [CommitWorker_commit fst snd] in H.
    apply bind_Ok_inv in H as ([r w'] & Hc & H). cbn [fst snd] in *.
    apply Forall_cons in Hhash as [Hd Hruns].
    pose proof (commit_step_covers ids d c w r w' Huuid Hd Hc Hcov) as Hcov'.
    pose proof (commit_dummy_run_inv _ _ _ _ Hc) as (Hfs & Hu & Ho & _).
    apply (IH (λ id, ids id ∨ id = DummyRun.run_id d)) in H
      as (Hfin & Hu' & Ho' & Hfs' & Hp'); [|cbn [snd]; by rewrite Hu|done|done].
    cbn [fst snd] in *. split_and!.
    + eapply cache_covers_weaken; [|done]. intros id [?|Hin]; [auto|].
      rewrite fmap_cons in Hin. apply elem_of_cons in Hin as [->|?]; auto.
    + by rewrite Hu', Hu.
    + by rewrite Ho', Ho.
    + by rewrite Hfs', Hfs.
    + by rewrite Hp', set_cache_path.
Qed.

(** Records whose hash is the cached one and names a record of the repository
    are all reopened: the cache, the set of records and the number of hashes
    drawn stay as they are. *)
Lemma CommitWorker_commit_stable (runs : list DummyRun.t) (c : RunHashCache.t) (w : World) :
  Forall (λ d, ∃ h, DummyRun.run_hash d = Some h
                    ∧ RunHashCache.get c (DummyRun.run_id d) = Some h
                    ∧ h ∈ dom (repo w)) runs →
  ∃ w', CommitWorker_commit runs (c, w) = Ok (c, w')
        ∧ dom (repo w') = dom (repo w) ∧ drawn w' = drawn w
        ∧ fs w' = fs w ∧ uuid w' = uuid w ∧ ready_order w' = ready_order w.
Proof.
  revert w. induction runs as [|d runs IH]; intros w Hall.
  - exists w. by split_and!.
  - apply Forall_cons in Hall as [(h & Hh & Hget & Hin) Hruns].
    destruct (commit_dummy_run_reopens d w h Hh Hin)
      as (r & w1 & Hc & Hr & Hdom & Hdrawn & Hfs & Hu & Ho).
    simpl. rewrite Hc, bind_Ok. simpl. rewrite Hr, (set_same_noop c _ h Hget).
    destruct (IH w1) as (w' & Hc' & Hdom' & Hdrawn' & Hfs' & Hu' & Ho').
    { eapply Forall_impl; [done|]. intros d' (h' & ? & ? & ?).
      exists h'. by rewrite Hdom. }
    exists w'. split_and!; [done|congruence..].
Qed.

Lemma fetched_hash_truthy (c : RunHashCache.t) (d : DummyRun.t) :
  DummyRun.run_hash d
  = (if truthy (RunHashCache.get c (DummyRun.run_id d))
     then RunHashCache.get c (DummyRun.run_id d) else None) →
  ∀ h, DummyRun.run_hash d = Some h → str_truthy h = true.
Proof.
  intros -> h. destruct (RunHashCache.get c (DummyRun.run_id d)) as [h'|] eqn:Hget;
    simpl; [|done].
  destruct (str_truthy h') eqn:Ht; [|done]. by intros [= <-].
Qed.

(** The first pass over an experiment: afterwards the cache covers its runs
    and the cache file holds the cache. *)
Lemma convert_experiment_covers (client : MlflowClient.t) (db_driver : CommitDriver.t)
    (ex : Experiment.t) (ids : string → Prop) (st st' : RunHashCache.t * World) :
  1 ≤ length (CommitDriver.workers db_driver) →
  (∀ n, str_truthy (uuid st.2 n) = true) →
  (∀ l, ready_order st.2 l ≡ₚ l) →
  convert_experiment literal_eval client db_driver ex st = Ok st' →
  cache_covers ids st →
  cache_covers (λ id, ids id ∨ run_of client ex id) st'
  ∧ uuid st'.2 = uuid st.2 ∧ ready_order st'.2 = ready_order st.2
  ∧ RunHashCache._cache_path st'.1 = RunHashCache._cache_path st.1
  ∧ fs st'.2 !! RunHashCache._cache_path st'.1
    = Some (JsonObject (RunHashCache._cache st'.1))
  ∧ fetchable literal_eval client ex.
Proof.
  intros HW Huuid Hperm H Hcov. unfold convert_experiment in H.
  apply bind_Ok_inv in H as (runs & Hruns & H).
  apply bind_Ok_inv in H as (ds & Hds & H).
  apply bind_Ok_inv in H as ([c1 w1] & Hcommit & H).
  unfold RunHashCache.refresh in H. injection H as <-. cbn [fst snd].
  rewrite CommitDriver_commit_batch in Hcommit by done.
  pose proof (mapM_fetch_frame _ _ _ _ _ Hds) as [Hids Hhash].
  apply CommitWorker_commit_covers with (ids := ids) in Hcommit
    as (Hcov1 & Hu & Ho & Hfs & Hp); [|done| |done].
  - cbn [fst snd] in *. split_and!; try done.
    + intros id Hid. apply (Hcov1 id). destruct Hid as [Hid|Hid]; [by left|right].
      destruct Hid as (runs' & run & Hruns' & Hrun & <-).
      rewrite Hruns in Hruns'. injection Hruns' as <-.
      rewrite (Hperm ds), Hids.
      by apply (list_elem_of_fmap_2 (λ run, RunInfo.run_id (MlflowRun.info run))).
    + simpl. apply lookup_insert_eq.
    + exists runs. split; [done|]. intros c. by eapply mapM_fetch_any.
  - rewrite (Hperm ds). eapply Forall_impl; [done|]. apply fetched_hash_truthy.
Qed.

(** A later pass over an experiment whose runs the cache covers: every record
    is reopened and the cache file is rewritten with what it held. *)
Lemma convert_experiment_stable (client : MlflowClient.t) (db_driver : CommitDriver.t)
    (ex : Experiment.t) (c : RunHashCache.t) (w : World) :
  1 ≤ length (CommitDriver.workers db_driver) →
  (∀ l, ready_order w l ≡ₚ l) →
  fetchable literal_eval client ex →
  cache_covers (run_of client ex) (c, w) →
  fs w !! RunHashCache._cache_path c = Some (JsonObject (RunHashCache._cache c)) →
  ∃ w', convert_experiment literal_eval client db_driver ex (c, w) = Ok (c, w')
        ∧ dom (repo w') = dom (repo w) ∧ drawn w' = drawn w
        ∧ fs w' = fs w ∧ uuid w' = uuid w ∧ ready_order w' = ready_order w.
Proof.
  intros HW Hperm (runs & Hruns & Hfetch) Hcov Hfile.
  destruct (Hfetch c) as [ds Hds].
  pose proof (mapM_fetch_frame _ _ _ _ _ Hds) as [Hids Hhash].
  assert (Hall : Forall (λ d, ∃ h, DummyRun.run_hash d = Some h
                    ∧ RunHashCache.get c (DummyRun.run_id d) = Some h
                    ∧ h ∈ dom (repo w)) (ready_order w ds)).
  { rewrite (Hperm ds). apply Forall_forall. intros d Hd.
    assert (Hrun : run_of client ex (DummyRun.run_id d)).
    { apply (list_elem_of_fmap_2 DummyRun.run_id) in Hd. rewrite Hids in Hd.
      apply list_elem_of_fmap in Hd as (run & Hid & Hrun).
      exists runs, run. by split_and!. }
    destruct (Hcov _ Hrun) as (h & Hget & Ht & Hin). cbn [fst snd] in *.
    rewrite Forall_forall in Hhash. rewrite (Hhash d Hd), Hget. simpl. rewrite Ht.
    by exists h. }
  destruct (CommitWorker_commit_stable _ c w Hall)
    as (w1 & Hcommit & Hdom & Hdrawn & Hfs & Hu & Ho).
  exists (with_fs w1 (fs w)). unfold convert_experiment.
  rewrite Hruns, bind_Ok. cbn [fst snd]. rewrite Hds, bind_Ok.
  rewrite CommitDriver_commit_batch, Hcommit, bind_Ok by done.
  unfold RunHashCache.refresh. rewrite fs_run_refresh, Hfs, insert_id by done.
  by split_and!.
Qed.

Lemma convert_experiments_covers (client : MlflowClient.t) (db_driver : CommitDriver.t)
    (experiments : list Experiment.t) (ids : string → Prop)
    (st st' : RunHashCache.t * World) :
  1 ≤ length (CommitDriver.workers db_driver) →
  (∀ n, str_truthy (uuid st.2 n) = true) →
  (∀ l, ready_order st.2 l ≡ₚ l) →
  convert_experiments literal_eval client db_driver experiments st = Ok st' →
  cache_covers ids st →
  cache_covers (λ id, ids id ∨ run_of_any client experiments id) st'
  ∧ uuid st'.2 = uuid st.2 ∧ ready_order st'.2 = ready_order st.2
  ∧ RunHashCache._cache_path st'.1 = RunHashCache._cache_path st.1
  ∧ (experiments ≠ [] →
     fs st'.2 !! RunHashCache._cache_path st'.1
     = Some (JsonObject (RunHashCache._cache st'.1)))
  ∧ Forall (fetchable literal_eval client) experiments.
Proof.
  intros HW. revert ids st.
  induction experiments as [|ex experiments IH]; intros ids st Huuid Hperm H Hcov.
  - injection H as <-. split_and!; try done.
    eapply cache_covers_weaken; [|done]. intros id [?|(ex & Hex & _)]; [done|].
    by apply elem_of_nil in Hex.
  - cbn [convert_experiments] in H. apply bind_Ok_inv in H as (st1 & Hex & H).
    apply (convert_experiment_covers _ _ _ ids) in Hex
      as (Hcov1 & Hu1 & Ho1 & Hp1 & Hfile1 & Hfetch1); [|done..].
    pose proof H as Hrest.
    apply (IH (λ id, ids id ∨ run_of client ex id)) in H
      as (Hcov' & Hu' & Ho' & Hp' & Hfile' & Hfetch');
      [|by rewrite Hu1|by rewrite Ho1|done].
    split_and!.
    + eapply cache_covers_weaken; [|done]. intros id [?|(ex' & Hex' & Hrun)]; [auto|].
      apply elem_of_cons in Hex' as [->|Hex']; [auto|].
      right. by exists ex'.
    + by rewrite Hu', Hu1.
    + by rewrite Ho', Ho1.
    + by rewrite Hp', Hp1.
    + intros _. destruct experiments as [|ex' experiments]; [|by apply Hfile'].
      by injection Hrest as <-.
    + by constructor.
Qed.

Lemma convert_experiments_stable (client : MlflowClient.t) (db_driver : CommitDriver.t)
    (experiments : list Experiment.t) (c : RunHashCache.t) (w : World) :
  1 ≤ length (CommitDriver.workers db_driver) →
  (∀ l, ready_order w l ≡ₚ l) →
  Forall (fetchable literal_eval client) experiments →
  cache_covers (run_of_any client experiments) (c, w) →
  fs w !! RunHashCache._cache_path c = Some (JsonObject (RunHashCache._cache c)) →
  ∃ w', convert_experiments literal_eval client db_driver experiments (c, w) = Ok (c, w')
        ∧ dom (repo w') = dom (repo w) ∧ drawn w' = drawn w
        ∧ fs w' = fs w ∧ uuid w' = uuid w ∧ ready_order w' = ready_order w.
Proof.
  intros HW. revert w.
  induction experiments as [|ex experiments IH]; intros w Hperm Hfetch Hcov Hfile.
  - exists w. by split_and!.
  - apply Forall_cons in Hfetch as [Hex Hrest].
    destruct (convert_experiment_stable client db_driver ex c w)
      as (w1 & Hc1 & Hdom1 & Hdrawn1 & Hfs1 & Hu1 & Ho1); [done..| |done|].
    { eapply cache_covers_weaken; [|done]. intros id Hid. exists ex.
      split; [apply elem_of_cons; by left|done]. }
    destruct (IH w1) as (w' & Hc' & Hdom' & Hdrawn' & Hfs' & Hu' & Ho').
    + intros l. by rewrite Ho1.
    + done.
    + intros id (ex' & Hex' & Hrun).
      destruct (Hcov id) as (h & Hget & Ht & Hin).
      { exists ex'. split; [apply elem_of_cons; by right|done]. }
      exists h. cbn [fst snd] in *. by rewrite Hdom1.
    + by rewrite Hfs1.
    + exists w'. cbn [convert_experiments]. rewrite Hc1, bind_Ok.
      split_and!; [done|congruence..].
Qed.

(** C9: the cached hash is tested for truth, not for presence.  When the
    cache maps a run id to a falsy hash (the empty string), [get_dummyrun]
    builds the record without [run_hash], the fetched record has none either,
    and [commit_dummy_run] opens a record under a newly generated hash: with
    that hash not yet in the repository, the repository gains one record. *)
Theorem falsy_cached_hash_is_not_reused
    (cache : RunHashCache.t) (client : MlflowClient.t) (id name exp : string)
    (d : DummyRun.t) (w : World) (h : string) :
  RunHashCache.get cache id = Some h →
  str_truthy h = false →
  fetch cache client id name exp = Ok d →
  uuid w (drawn w) ∉ dom (repo w) →
  DummyRun.run_hash (get_dummyrun id name exp cache) = None
  ∧ DummyRun.run_hash d = None
  ∧ ∃ r w', commit_dummy_run d w = Ok (r, w')
            ∧ AimRun.hash r = uuid w (drawn w)
            ∧ dom (repo w') = {[AimRun.hash r]} ∪ dom (repo w)
            ∧ size (repo w') = S (size (repo w))
            ∧ drawn w' = S (drawn w).
Proof.
  intros Hget Hfalsy Hfetch Hfresh.
  assert (Hnone : DummyRun.run_hash d = None).
  { apply fetch_run_details_frame in Hfetch as [_ ->]. rewrite Hget. simpl.
    by rewrite Hfalsy. }
  split_and!; [|done|].
  - rewrite get_dummyrun_run_hash, Hget. simpl. by rewrite Hfalsy.
  - destruct (commit_dummy_run_creates d w Hnone) as (r & w' & Hc & Hr & Hdom & Hdrawn).
    exists r, w'. rewrite Hr. split_and!; try done.
    rewrite <-!size_dom, Hdom, size_union, size_singleton; [done|].
    by apply disjoint_singleton_l.
Qed.

(** C1: a second full pass over an unchanged source, after a first pass that
    went through, goes through as well and creates no destination record: the
    repository has the same records (the same hashes, as many), no hash is
    generated, and the cache file is what it was, so that every source run id
    maps to the destination id it had after the first pass.  Run by run: when
    the cache maps the run id to a hash (not empty, as the hashes Aim
    generates are) of a record in the repository, the fetched record carries
    that hash, the commit reopens that record and adds none, and the cache
    update that follows changes nothing. *)
Theorem second_pass_creates_no_record
    (repo_path : string) (client : MlflowClient.t) (experiment : option string)
    (w0 w1 : World) :
  (∀ n, str_truthy (uuid w0 n) = true) →
  (∀ l, ready_order w0 l ≡ₚ l) →
  convert_existing_logs literal_eval repo_path client experiment w0 = Ok w1 →
  (∃ w2, convert_existing_logs literal_eval repo_path client experiment w1 = Ok w2
         ∧ dom (repo w2) = dom (repo w1) ∧ size (repo w2) = size (repo w1)
         ∧ drawn w2 = drawn w1 ∧ fs w2 = fs w1)
  ∧ (∀ cache id name exp d h w,
       RunHashCache.get cache id = Some h → str_truthy h = true →
       h ∈ dom (repo w) →
       fetch cache client id name exp = Ok d →
       DummyRun.run_hash d = Some h
       ∧ ∃ r w', commit_dummy_run d w = Ok (r, w')
                 ∧ AimRun.hash r = h
                 ∧ dom (repo w') = dom (repo w) ∧ drawn w' = drawn w
                 ∧ RunHashCache.set cache (DummyRun.run_id d) (AimRun.hash r) = cache).
Proof.
  intros Huuid Hperm Hpass. split.
  - unfold convert_existing_logs in *.
    apply bind_Ok_inv in Hpass as (experiments & -> & Hpass). rewrite bind_Ok.
    unfold RunHashCache.__init__ in *. cbn [andb] in *.
    set (path := path_join repo_path "mlflow_logs_cache") in *.
    apply bind_Ok_inv in Hpass as ([c1 w1'] & Hpass & [= ->]).
    assert (HW : 1 ≤ length (CommitDriver.workers (CommitDriver.__init__ repo_path 4)))
      by (simpl; lia).
    apply (convert_experiments_covers _ _ _ (λ _, False)) in Hpass
      as (Hcov & Hu & Ho & Hp & Hfile & Hfetch);
      [|exact HW|exact Huuid|exact Hperm|by intros id []].
    cbn [fst snd] in *.
    destruct (decide (experiments = [])) as [->|Hne].
    + exists (with_fs w1 (fs w1)). by split_and!.
    + specialize (Hfile Hne). rewrite Hp in Hfile. cbn in Hfile.
      unfold json_load at 1. rewrite Hfile. cbn [default from_option id].
      set (c2 := {| RunHashCache._cache_path := path;
                    RunHashCache._cache := RunHashCache._cache c1;
                    RunHashCache._needs_refresh := false |}).
      destruct (convert_experiments_stable client (CommitDriver.__init__ repo_path 4)
                  experiments c2 (with_fs w1 (fs w1)))
        as (w2 & Hpass2 & Hdom & Hdrawn & Hfs & _); [exact HW| | | |done|].
      * intros l. cbn. rewrite Ho. apply Hperm.
      * done.
      * intros id Hid. destruct (Hcov id) as (h & Hget & Ht & Hin); [by right|].
        by exists h.
      * exists w2. fold c2. rewrite Hpass2, bind_Ok. split_and!; try done.
        by rewrite <-!size_dom, Hdom.
  - intros cache id name exp d h w Hget Ht Hin Hfetch.
    apply fetch_run_details_frame in Hfetch as [Hid Hhash].
    rewrite Hget in Hhash. simpl in Hhash. rewrite Ht in Hhash.
    split; [done|].
    destruct (commit_dummy_run_reopens d w h Hhash Hin)
      as (r & w' & Hc & Hr & Hdom & Hdrawn & _).
    exists r, w'. split_and!; try done.
    rewrite Hr, Hid. by apply set_same_noop.
Qed.

End Pass.

Lemma falsy_cached_hash_is_not_reused_witness :
  ∃ d r w',
    fetch_run_details Literal.eval (RunHashCache.set Sample.loaded "a1" EmptyString)
      Sample.client "a1" "first" "A" = Ok d
    ∧ commit_dummy_run d Sample.world = Ok (r, w')
    ∧ AimRun.hash r = "h0"%string
    ∧ size (repo w') = 1.
Proof.
  eexists.
  destruct (falsy_cached_hash_is_not_reused Literal.eval
              (RunHashCache.set Sample.loaded "a1" EmptyString)
              Sample.client "a1" "first" "A" _ Sample.world EmptyString
              eq_refl eq_refl eq_refl)
    as (_ & _ & r & w' & Hc & Hr & _ & Hsize & _).
  - simpl. rewrite dom_empty_L. apply not_elem_of_empty.
  - exists r, w'. split_and!; [reflexivity|exact Hc|exact Hr|exact Hsize].
Defined.

Lemma second_pass_creates_no_record_witness :
  ∃ w1 w2,
    convert_existing_logs Literal.eval "repo" Sample.client None Sample.world = Ok w1
    ∧ convert_existing_logs Literal.eval "repo" Sample.client None w1 = Ok w2
    ∧ size (repo w1) = 3
    ∧ dom (repo w2) = dom (repo w1).
Proof.
  assert (∃ w1, convert_existing_logs Literal.eval "repo" Sample.client None Sample.world
                = Ok w1 ∧ size (repo w1) = 3) as (w1 & H1 & Hsize).
  { vm_compute. eexists. split; reflexivity. }
  destruct (second_pass_creates_no_record Literal.eval "repo" Sample.client None
              Sample.world w1) as [(w2 & H2 & Hdom & _) _].
  - intros n. reflexivity.
  - intros l. apply reverse_Permutation.
  - exact H1.
  - exists w1, w2. split_and!; [exact H1|exact H2|exact Hsize|exact Hdom].
Defined.

(** * Further properties of the code *)

(** ** The cache: loading, histories of calls *)

Lemma init_load (repo_path : string) (fs : gmap string file_content) :
  RunHashCache.__init__ repo_path false fs
  = ({| RunHashCache._cache_path := path_join repo_path "mlflow_logs_cache";
        RunHashCache._cache :=
          default ∅ (json_load fs (path_join repo_path "mlflow_logs_cache"));
        RunHashCache._needs_refresh := false |}, fs).
Proof. done. Qed.

Lemma cache_serve_all_app (calls1 calls2 : list cache_call)
    (st : RunHashCache.t * gmap string file_content) :
  cache_serve_all (calls1 ++ calls2) st
  = cache_serve_all calls2 (cache_serve_all calls1 st).
Proof. apply foldl_app. Qed.

Lemma cache_serve_all_cons (call : cache_call) (calls : list cache_call)
    (st : RunHashCache.t * gmap string file_content) :
  cache_serve_all (call :: calls) st = cache_serve_all calls (cache_serve st call).
Proof. done. Qed.

Lemma cache_serve_path (call : cache_call)
    (st : RunHashCache.t * gmap string file_content) :
  RunHashCache._cache_path (cache_serve st call).1 = RunHashCache._cache_path st.1.
Proof. destruct call; simpl; [apply set_cache_path|done]. Qed.

Lemma cache_serve_all_path (calls : list cache_call)
    (st : RunHashCache.t * gmap string file_content) :
  RunHashCache._cache_path (cache_serve_all calls st).1 = RunHashCache._cache_path st.1.
Proof.
  revert st. induction calls as [|call calls IH]; intros st; [done|].
  simpl. by rewrite IH, cache_serve_path.
Qed.

(** X1: what was set is read back after a restart.  After any history of
    [set] and [refresh] calls that ends with a [refresh], a cache created anew
    on the same repository path loads exactly the mapping the old one held
    (and starts clean), so [get] answers as before the restart. *)
Theorem cache_survives_restart (repo_path : string) (calls : list cache_call)
    (c : RunHashCache.t) (fs : gmap string file_content) :
  RunHashCache._cache_path c = path_join repo_path "mlflow_logs_cache" →
  let st := cache_serve_all (calls ++ [CallRefresh]) (c, fs) in
  let reloaded := (RunHashCache.__init__ repo_path false st.2).1 in
  RunHashCache._cache reloaded = RunHashCache._cache st.1
  ∧ (∀ run_id, RunHashCache.get reloaded run_id = RunHashCache.get st.1 run_id)
  ∧ RunHashCache._needs_refresh reloaded = false.
Proof.
  intros Hpath st reloaded.
  assert (Hc : RunHashCache._cache reloaded = RunHashCache._cache st.1).
  { unfold reloaded, st. rewrite init_load, cache_serve_all_app. cbn [fst].
    set (st1 := cache_serve_all calls (c, fs)).
    assert (Hp1 : RunHashCache._cache_path st1.1 = path_join repo_path "mlflow_logs_cache").
    { unfold st1. by rewrite cache_serve_all_path. }
    cbn [cache_serve_all foldl cache_serve]. unfold RunHashCache.refresh. cbn [fst snd].
    rewrite fs_run_refresh, Hp1. unfold json_load. by rewrite lookup_insert_eq. }
  split_and!; [done| |done].
  intros run_id. unfold RunHashCache.get. by rewrite Hc.
Qed.

Lemma cache_survives_restart_witness :
  RunHashCache.get
    (RunHashCache.__init__ "repo" false
       (cache_serve_all ([CallSet "a2" "h1"; CallSet "a1" "h7"] ++ [CallRefresh])
          (Sample.loaded, Sample.disk)).2).1 "a1"
  = Some "h7"%string.
Proof.
  destruct (cache_survives_restart "repo" [CallSet "a2" "h1"; CallSet "a1" "h7"]
              Sample.loaded Sample.disk eq_refl) as (_ & Hget & _).
  rewrite Hget. reflexivity.
Defined.

(** X2: over any history of calls the cache is last-write-wins: [get(run_id)]
    answers the value of the last [set(run_id, _)] of the history, or what the
    cache held at the start when the history has none; [refresh] calls and
    [set] calls on other ids make no difference. *)
Theorem cache_history_last_set (calls : list cache_call) (c : RunHashCache.t)
    (fs : gmap string file_content) (run_id : string) :
  RunHashCache.get (cache_serve_all calls (c, fs)).1 run_id
  = match last_set run_id calls with
    | Some v => Some v
    | None => RunHashCache.get c run_id
    end.
Proof.
  revert c fs. induction calls as [|call calls IH]; intros c fs; [done|].
  rewrite cache_serve_all_cons.
  destruct call as [k v|]; cbn [cache_serve last_set fst snd].
  - rewrite IH, get_set. by destruct (last_set run_id calls), (decide (k = run_id)).
  - unfold RunHashCache.refresh. by rewrite IH.
Qed.

Lemma cache_serve_keeps (call : cache_call)
    (st : RunHashCache.t * gmap string file_content) :
  dom (RunHashCache._cache st.1) ⊆ dom (RunHashCache._cache (cache_serve st call).1)
  ∧ implb (RunHashCache._needs_refresh st.1)
          (RunHashCache._needs_refresh (cache_serve st call).1) = true
  ∧ ∀ p, p ≠ RunHashCache._cache_path st.1 → (cache_serve st call).2 !! p = st.2 !! p.
Proof.
  destruct st as [c fs]. destruct call as [k v|]; cbn [cache_serve fst snd].
  - split_and!; [|by unfold RunHashCache.set, RunHashCache.__setitem__;
                     case_bool_decide; simpl; destruct (RunHashCache._needs_refresh c)|done].
    rewrite setitem_unfold, dom_insert_L. apply union_subseteq_r.
  - unfold RunHashCache.refresh. cbn [fst snd]. split_and!;
      [done|by destruct (RunHashCache._needs_refresh c)|].
    intros p Hp. rewrite fs_run_refresh. by apply lookup_insert_ne.
Qed.

(** X3: what no history of calls does.  Whatever [set] and [refresh] calls
    the cache serves, no run id is ever removed from the mapping, the dirty
    flag, once set, is never cleared, the path of the cache file stays the
    same and no file other than the cache file is touched. *)
Theorem cache_never_forgets (calls : list cache_call) (c : RunHashCache.t)
    (fs : gmap string file_content) :
  dom (RunHashCache._cache c)
    ⊆ dom (RunHashCache._cache (cache_serve_all calls (c, fs)).1)
  ∧ implb (RunHashCache._needs_refresh c)
          (RunHashCache._needs_refresh (cache_serve_all calls (c, fs)).1) = true
  ∧ RunHashCache._cache_path (cache_serve_all calls (c, fs)).1
    = RunHashCache._cache_path c
  ∧ ∀ p, p ≠ RunHashCache._cache_path c →
         (cache_serve_all calls (c, fs)).2 !! p = fs !! p.
Proof.
  split_and!; [| |apply cache_serve_all_path|].
  - revert c fs. induction calls as [|call calls IH]; intros c fs; [done|].
    rewrite cache_serve_all_cons.
    destruct (cache_serve (c, fs) call) as [c1 fs1] eqn:Hserve.
    etrans; [|apply IH].
    pose proof (cache_serve_keeps call (c, fs)) as (H & _). by rewrite Hserve in H.
  - revert c fs. induction calls as [|call calls IH]; intros c fs;
      [simpl; by destruct (RunHashCache._needs_refresh c)|].
    rewrite cache_serve_all_cons.
    destruct (cache_serve (c, fs) call) as [c1 fs1] eqn:Hserve.
    pose proof (cache_serve_keeps call (c, fs)) as (_ & H & _).
    rewrite Hserve in H. cbn [fst] in H. specialize (IH c1 fs1).
    destruct (RunHashCache._needs_refresh c); [|done].
    by destruct (RunHashCache._needs_refresh c1).
  - revert c fs. induction calls as [|call calls IH]; intros c fs p Hp; [done|].
    rewrite cache_serve_all_cons.
    destruct (cache_serve (c, fs) call) as [c1 fs1] eqn:Hserve.
    pose proof (cache_serve_keeps call (c, fs)) as (_ & _ & H).
    pose proof (cache_serve_path call (c, fs)) as Hpath.
    rewrite Hserve in H, Hpath. cbn [fst snd] in *.
    rewrite IH by by rewrite Hpath. by apply H.
Qed.

(** X4: with [no_cache], the cache starts empty and clean whatever the cache
    file held, the cache file is gone, and every other file is as it was. *)
Theorem no_cache_starts_empty (repo_path : string) (fs : gmap string file_content) :
  let path := path_join repo_path "mlflow_logs_cache" in
  RunHashCache._cache (RunHashCache.__init__ repo_path true fs).1 = ∅
  ∧ RunHashCache._needs_refresh (RunHashCache.__init__ repo_path true fs).1 = false
  ∧ (RunHashCache.__init__ repo_path true fs).2 !! path = None
  ∧ ∀ p, p ≠ path → (RunHashCache.__init__ repo_path true fs).2 !! p = fs !! p.
Proof.
  intros path. unfold RunHashCache.__init__. fold path. cbn [andb fst snd].
  case_bool_decide as Hfile.
  - unfold json_load. rewrite lookup_delete_eq. split_and!; try done.
    intros p Hp. by apply lookup_delete_ne.
  - assert (Hnone : fs !! path = None).
    { destruct (fs !! path) eqn:H; [|done]. destruct Hfile. eauto. }
    unfold json_load. rewrite Hnone. by split_and!.
Qed.

(** X5: a [refresh] interrupted after it has truncated the file loses the
    mapping without a trace: the next cache created on that repository loads
    an empty mapping, with no error. *)
Theorem interrupted_refresh_loses_cache (repo_path : string) (c : RunHashCache.t)
    (fs : gmap string file_content) :
  RunHashCache._cache_path c = path_join repo_path "mlflow_logs_cache" →
  RunHashCache._cache
    (RunHashCache.__init__ repo_path false (RunHashCache.refresh_interrupted 1 c fs)).1
  = ∅.
Proof.
  intros Hpath. rewrite init_load. cbn [fst RunHashCache._cache].
  unfold RunHashCache.refresh_interrupted, fs_run, json_load. simpl.
  by rewrite <-Hpath, lookup_insert_eq.
Qed.

Lemma interrupted_refresh_loses_cache_witness :
  RunHashCache.get Sample.loaded "a1" = Some "h0"%string
  ∧ RunHashCache._cache
      (RunHashCache.__init__ "repo" false
         (RunHashCache.refresh_interrupted 1 Sample.loaded Sample.disk)).1
    = ∅.
Proof.
  split; [reflexivity|].
  apply (interrupted_refresh_loses_cache "repo" Sample.loaded Sample.disk). reflexivity.
Defined.

(** ** Errors of the experiment lookup *)

Section LookupErrors.
Variable literal_eval : string → option pyval.

(** X6: only [MlflowException] makes the lookup fall back to the name.  Any
    other exception of the lookup by id, any exception of the lookup by name
    and any exception of the search for all experiments comes out of
    [get_mlflow_experiments] as it is, and ends the pass with that
    exception. *)
Theorem experiment_lookup_errors_propagate (client : MlflowClient.t) (e : string)
    (err : exn) :
  (MlflowClient.get_experiment client e = Raise err →
   (∀ msg, err ≠ MlflowException msg) →
   get_mlflow_experiments client (Some e) = Raise err
   ∧ ∀ repo_path w,
       convert_existing_logs literal_eval repo_path client (Some e) w = Raise err)
  ∧ (∀ msg,
       MlflowClient.get_experiment client e = Raise (MlflowException msg) →
       MlflowClient.get_experiment_by_name client e = Raise err →
       get_mlflow_experiments client (Some e) = Raise err
       ∧ ∀ repo_path w,
           convert_existing_logs literal_eval repo_path client (Some e) w = Raise err)
  ∧ (MlflowClient.search_experiments client = Raise err →
     ∀ repo_path w,
       convert_existing_logs literal_eval repo_path client None w = Raise err).
Proof.
  split_and!.
  - intros Hid Hother.
    assert (H : get_mlflow_experiments client (Some e) = Raise err).
    { unfold get_mlflow_experiments. rewrite Hid.
      destruct err; try done. by destruct (Hother msg). }
    split; [done|]. intros. unfold convert_existing_logs. by rewrite H.
  - intros msg Hid Hname.
    assert (H : get_mlflow_experiments client (Some e) = Raise err).
    { unfold get_mlflow_experiments. by rewrite Hid, Hname. }
    split; [done|]. intros. unfold convert_existing_logs. by rewrite H.
  - intros Hsearch repo_path w. unfold convert_existing_logs. simpl. by rewrite Hsearch.
Qed.

End LookupErrors.

Lemma experiment_lookup_errors_propagate_witness :
  convert_existing_logs Literal.eval "repo" Faulty.unreachable (Some "A"%string) Sample.world
  = Raise (RuntimeError "connection reset")
  ∧ MlflowClient.get_experiment_by_name Faulty.unreachable "A" = Ok (Some Sample.exp_a).
Proof.
  split; [|reflexivity].
  destruct (experiment_lookup_errors_propagate Literal.eval Faulty.unreachable "A"
              (RuntimeError "connection reset")) as ((_ & H) & _); [reflexivity|done|].
  apply H.
Defined.

(** ** The commit driver and its workers *)

(** X7: [CommitDriver.__init__] makes as many workers as connections asked
    for, the [i]-th named ["wrkr-i"] on the given repository.  With no
    connection, every [commit] raises numpy's [ValueError], even for an empty
    batch, and nothing is committed. *)
Theorem CommitDriver_workers (repo_path : string) (num_connections : nat) :
  length (CommitDriver.workers (CommitDriver.__init__ repo_path num_connections))
    = num_connections
  ∧ (∀ i, i < num_connections →
       CommitDriver.workers (CommitDriver.__init__ repo_path num_connections) !! i
       = Some {| CommitWorker._repo_path := repo_path;
                 CommitWorker._workername := ("wrkr-" +:+ pretty i)%string |})
  ∧ (∀ dummy_runs st,
       CommitDriver_commit (CommitDriver.__init__ repo_path 0) dummy_runs st
       = Raise (ValueError "number sections must be larger than 0.")).
Proof.
  unfold CommitDriver.__init__. cbn [CommitDriver.workers]. split_and!.
  - by rewrite length_fmap, length_seq.
  - intros i Hi. by rewrite list_lookup_fmap, lookup_seq_lt.
  - done.
Qed.

(** ** The shape of a mapped tree *)

(** X8: [_map_nested_dicts] changes the leaves only.  A mapping comes back
    as a mapping with the same keys in the same order, each value being the
    result for the value it replaces; everything that is not a mapping (a
    list of mappings as well) is handed to the function as one leaf; and
    mapping with a function that returns its argument gives the tree back. *)
Theorem map_nested_dicts_shape (f : pyval → result pyval) :
  (∀ d v, _map_nested_dicts f (PyDict d) = Ok v →
     ∃ d', v = PyDict d' ∧ d'.*1 = d.*1
           ∧ Forall2 (λ kv kv', _map_nested_dicts f kv.2 = Ok kv'.2) d d')
  ∧ (∀ l, _map_nested_dicts f (PyList l) = f (PyList l))
  ∧ (∀ tree, _map_nested_dicts Ok tree = Ok tree).
Proof.
  split_and!.
  - intros d v H. rewrite map_nested_dicts_dict in H.
    apply bind_Ok_inv in H as (d' & Hd' & [= <-]).
    exists d'. split; [done|]. by apply map_items_shape.
  - done.
  - intros tree. induction tree as [v Hv|d IH] using pyval_tree_ind.
    + by apply map_nested_dicts_leaf.
    + rewrite map_nested_dicts_dict.
      assert (map_items Ok d = Ok d) as ->; [|done].
      induction IH as [|[k v] d Hv _ IHd]; [done|].
      simpl in Hv. by rewrite map_items_cons, Hv, bind_Ok, IHd.
Qed.

(** ** What a commit writes *)

Lemma attrs_foldl_setitem (kvs : list (string * pyval)) (r : AimRun.t) :
  AimRun.attrs (foldl (λ r kv, AimRun.setitem r kv.1 kv.2) r kvs)
  = foldl (λ a kv, dict_set kv.1 kv.2 a) (AimRun.attrs r) kvs.
Proof. revert r. induction kvs as [|kv kvs IH]; intros r; simpl; [done|by rewrite IH]. Qed.

Lemma frame_foldl_setitem (kvs : list (string * pyval)) (r : AimRun.t) :
  AimRun.name (foldl (λ r kv, AimRun.setitem r kv.1 kv.2) r kvs) = AimRun.name r
  ∧ AimRun.experiment (foldl (λ r kv, AimRun.setitem r kv.1 kv.2) r kvs)
    = AimRun.experiment r
  ∧ AimRun.tracked (foldl (λ r kv, AimRun.setitem r kv.1 kv.2) r kvs) = AimRun.tracked r.
Proof.
  revert r. induction kvs as [|kv kvs IH]; intros r; simpl; [done|].
  destruct (IH (AimRun.setitem r kv.1 kv.2)) as (-> & -> & ->). done.
Qed.

Lemma track_history_spec (ms : list Metric.t) (r : AimRun.t) :
  AimRun.tracked (track_history r ms) = AimRun.tracked r ++ (sample_of <$> ms)
  ∧ AimRun.name (track_history r ms) = AimRun.name r
  ∧ AimRun.experiment (track_history r ms) = AimRun.experiment r
  ∧ AimRun.attrs (track_history r ms) = AimRun.attrs r.
Proof.
  unfold track_history. revert r. induction ms as [|m ms IH]; intros r; simpl.
  - by rewrite app_nil_r.
  - destruct (IH (AimRun.track r (Metric.value m) (Metric.step m) (Metric.key m)))
      as (-> & -> & -> & ->).
    simpl. by rewrite <-(assoc_L (++)).
Qed.

Lemma foldl_track_spec (kvs : list (string * list Metric.t)) (r : AimRun.t) :
  AimRun.tracked (foldl (λ r kv, track_history r kv.2) r kvs)
    = AimRun.tracked r ++ (kvs ≫= λ kv, sample_of <$> kv.2)
  ∧ AimRun.name (foldl (λ r kv, track_history r kv.2) r kvs) = AimRun.name r
  ∧ AimRun.experiment (foldl (λ r kv, track_history r kv.2) r kvs) = AimRun.experiment r
  ∧ AimRun.attrs (foldl (λ r kv, track_history r kv.2) r kvs) = AimRun.attrs r.
Proof.
  revert r. induction kvs as [|kv kvs IH]; intros r; simpl.
  - by rewrite app_nil_r.
  - destruct (IH (track_history r kv.2)) as (-> & -> & -> & ->).
    destruct (track_history_spec kv.2 r) as (-> & -> & -> & ->).
    by rewrite <-(assoc_L (++)).
Qed.

Lemma dict_get_foldl_set (k : string) (kvs old : list (string * pyval)) :
  NoDup kvs.*1 →
  dict_get k (foldl (λ a kv, dict_set kv.1 kv.2 a) old kvs)
  = match dict_get k kvs with
    | Some v => Some v
    | None => dict_get k old
    end.
Proof.
  revert old. induction kvs as [|[k0 v0] kvs IH]; intros old Hnd; [done|].
  rewrite fmap_cons in Hnd. apply NoDup_cons in Hnd as [Hk0 Hnd].
  cbn [foldl fst snd dict_get]. rewrite IH by done.
  destruct (decide (k0 = k)) as [->|Hne].
  - assert (dict_get k kvs = None) as ->; [|by rewrite dict_get_set_eq].
    clear -Hk0. induction kvs as [|[k1 v1] kvs IH]; [done|].
    rewrite fmap_cons in Hk0. apply not_elem_of_cons in Hk0 as [Hne Hk0].
    simpl in *. rewrite decide_False by done. by apply IH.
  - by rewrite dict_get_set_ne.
Qed.

(** X9: what [commit_dummy_run] writes.  The record it returns is the one
    stored under its hash and no other record changes.  It carries the run
    name and the experiment of the transfer record; each parameter of the
    transfer record is an attribute of it, and the attributes the record had
    under other keys are kept; the samples of the metric histories, metric by
    metric and in history order, each with the key, step and value of the
    sample, are added after the samples the record had. *)
Theorem commit_dummy_run_writes (dummy : DummyRun.t) (w : World) (r : AimRun.t)
    (w' : World) :
  NoDup (DummyRun.params dummy).*1 →
  commit_dummy_run dummy w = Ok (r, w') →
  let before := record_before (AimRun.hash r) dummy w in
  repo w' !! AimRun.hash r = Some r
  ∧ (∀ h, h ≠ AimRun.hash r → repo w' !! h = repo w !! h)
  ∧ AimRun.name r = Some (DummyRun.run_name dummy)
  ∧ AimRun.experiment r = DummyRun.experiment dummy
  ∧ (∀ k, dict_get k (AimRun.attrs r)
          = match dict_get k (DummyRun.params dummy) with
            | Some v => Some v
            | None => dict_get k (AimRun.attrs before)
            end)
  ∧ AimRun.tracked r
    = AimRun.tracked before
      ++ (DummyRun.metrics dummy ≫= λ kv, sample_of <$> kv.2).
Proof.
  intros Hnd Hc before.
  pose proof (commit_dummy_run_inv _ _ _ _ Hc) as (_ & _ & _ & Hrepo & Hcase).
  assert (Hr : ∃ r0, r0 = AimRun.opened (AimRun.hash r) before (DummyRun.experiment dummy)
     ∧ r = foldl (λ r kv, track_history r kv.2)
             (foldl (λ r kv, AimRun.setitem r kv.1 kv.2)
                (AimRun.set_name r0 (DummyRun.run_name dummy))
                (DummyRun.params dummy))
             (DummyRun.metrics dummy)).
  { eexists. split; [reflexivity|]. unfold before, record_before.
    unfold commit_dummy_run, Run in Hc.
    destruct (DummyRun.run_hash dummy) as [h|].
    - destruct Hcase as (Hh & _). rewrite Hh.
      destruct (repo w !! h) as [r1|]; [|done].
      simpl in Hc. by injection Hc as <- _.
    - destruct Hcase as (Hh & _). rewrite Hh.
      simpl in Hc. by injection Hc as <- _. }
  destruct Hr as (r0 & Hr0 & Hr).
  set (r1 := AimRun.set_name r0 (DummyRun.run_name dummy)) in Hr.
  set (r2 := foldl (λ r kv, AimRun.setitem r kv.1 kv.2) r1 (DummyRun.params dummy)) in Hr.
  destruct (foldl_track_spec (DummyRun.metrics dummy) r2) as (Ht & Hn & He & Ha).
  destruct (frame_foldl_setitem (DummyRun.params dummy) r1) as (Hn1 & He1 & Ht1).
  fold r2 in Hn1, He1, Ht1. rewrite <-Hr in Ht, Hn, He, Ha.
  split_and!.
  - rewrite Hrepo. apply lookup_insert_eq.
  - intros h Hh. rewrite Hrepo. by apply lookup_insert_ne.
  - rewrite Hn, Hn1. done.
  - rewrite He, He1. unfold r1. by rewrite Hr0.
  - intros k. rewrite Ha. unfold r2.
    rewrite attrs_foldl_setitem, dict_get_foldl_set by done.
    unfold r1. by rewrite Hr0.
  - rewrite Ht, Ht1. unfold r1. by rewrite Hr0.
Qed.

Lemma commit_dummy_run_writes_witness :
  ∃ r w',
    commit_dummy_run
      (DummyRun.with_params (get_dummyrun "a9" "ninth" "A" Sample.loaded)
         [("lr"%string, PyInt 42)]) Sample.world = Ok (r, w')
    ∧ AimRun.name r = Some "ninth"%string
    ∧ dict_get "lr" (AimRun.attrs r) = Some (PyInt 42).
Proof.
  eexists _, _. split; [reflexivity|].
  match goal with
  | |- AimRun.name ?r = _ ∧ _ =>
      destruct (commit_dummy_run_writes
                  (DummyRun.with_params (get_dummyrun "a9" "ninth" "A" Sample.loaded)
                     [("lr"%string, PyInt 42)]) Sample.world r _
                  (NoDup_singleton _) eq_refl) as (_ & _ & Hname & _ & Hattrs & _)
  end.
  split; [exact Hname|]. rewrite Hattrs. reflexivity.
Defined.

(** ** Collecting metrics and the shape of a fetched record *)

Lemma collect_metrics_keys_with (keys : list string) (d : DummyRun.t)
    (run : MlflowRun.t) (client : MlflowClient.t) (ts : option Z) (d' : DummyRun.t) :
  collect_metrics_keys keys d run client ts = Ok d' →
  d' = DummyRun.with_metrics d (DummyRun.metrics d').
Proof.
  revert d. induction keys as [|key keys IH]; intros d H; simpl in H.
  - injection H as <-. by destruct d.
  - apply bind_Ok_inv in H as (mh & _ & H). apply IH in H. by rewrite H.
Qed.

Lemma collect_metrics_keys_spec (keys : list string) (d : DummyRun.t)
    (run : MlflowRun.t) (client : MlflowClient.t) (ts : option Z) (d' : DummyRun.t) :
  collect_metrics_keys keys d run client ts = Ok d' →
  (∀ key, key ∈ keys →
     ∃ history,
       MlflowClient.get_metric_history client
         (RunInfo.run_id (MlflowRun.info run)) key = Ok history
       ∧ dict_get key (DummyRun.metrics d') = Some (filter_since ts history))
  ∧ (∀ key, key ∉ keys →
       dict_get key (DummyRun.metrics d') = dict_get key (DummyRun.metrics d)).
Proof.
  revert d. induction keys as [|k0 keys IH]; intros d H; simpl in H.
  - injection H as <-. split; [|done]. intros key Hkey. by apply elem_of_nil in Hkey.
  - apply bind_Ok_inv in H as (h0 & Hh0 & H).
    destruct (IH _ H) as [Hin Hout]. split.
    + intros key Hkey. destruct (decide (key ∈ keys)) as [Hk|Hk]; [by apply Hin|].
      apply elem_of_cons in Hkey as [->|?]; [|done].
      exists h0. split; [done|]. rewrite (Hout _ Hk). simpl. apply dict_get_set_eq.
    + intros key Hkey. apply not_elem_of_cons in Hkey as [Hne Hk].
      rewrite (Hout _ Hk). simpl. by apply dict_get_set_ne.
Qed.

(** X10: [collect_metrics] stores, for every metric name the run reports,
    the history the client returns for it, in the client's order, and changes
    nothing else of the record.  With a timestamp floor, the samples below the
    floor are dropped and the others kept in order; a floor of 0 counts as no
    floor (it is tested for truth), so that samples with a negative timestamp
    are kept. *)
Theorem collect_metrics_histories (d : DummyRun.t) (run : MlflowRun.t)
    (client : MlflowClient.t) (ts : option Z) (d' : DummyRun.t) :
  collect_metrics d run client ts = Ok d' →
  (∀ key, key ∈ (RunData.metrics (MlflowRun.data run)).*1 →
     ∃ history,
       MlflowClient.get_metric_history client
         (RunInfo.run_id (MlflowRun.info run)) key = Ok history
       ∧ dict_get key (DummyRun.metrics d') = Some (filter_since ts history))
  ∧ (∀ key, key ∉ (RunData.metrics (MlflowRun.data run)).*1 →
       dict_get key (DummyRun.metrics d') = dict_get key (DummyRun.metrics d))
  ∧ d' = DummyRun.with_metrics d (DummyRun.metrics d')
  ∧ (∀ history, filter_since None history = history
                ∧ filter_since (Some 0%Z) history = history)
  ∧ (∀ t history, t ≠ 0%Z →
       filter_since (Some t) history
       = filter (λ m, (t ≤ Metric.timestamp m)%Z) history).
Proof.
  unfold collect_metrics. intros H.
  destruct (collect_metrics_keys_spec _ _ _ _ _ _ H) as [Hin Hout].
  split_and!; [done|done|by eapply collect_metrics_keys_with|done|].
  intros t history Ht. unfold filter_since. by rewrite decide_False.
Qed.

Lemma collect_metrics_histories_witness :
  ∃ d', collect_metrics (get_dummyrun "a1" "first" "A" Sample.loaded) Sample.run_a1
          Sample.client (Some 150%Z) = Ok d'
        ∧ ∃ history,
            MlflowClient.get_metric_history Sample.client "a1" "loss" = Ok history
            ∧ dict_get "loss" (DummyRun.metrics d')
              = Some (filter_since (Some 150%Z) history).
Proof.
  eexists. split; [reflexivity|].
  eapply (collect_metrics_histories (get_dummyrun "a1" "first" "A" Sample.loaded)
            Sample.run_a1 Sample.client (Some 150%Z)); [reflexivity|].
  simpl. apply elem_of_cons. by left.
Defined.

Section FetchedShape.
Variable literal_eval : string → option pyval.

(** X11: the shape of a fetched record.  It has the id, the name and the
    experiment name it was asked for, no artifacts, and exactly five
    parameters, in this order: [mlflow_run_id], [mlflow_experiment_id],
    [description], [params], [tags].  It carries a [run_hash] only when the
    cache holds a non-empty one for the run id, and then that one. *)
Theorem fetch_run_details_shape (c : RunHashCache.t) (client : MlflowClient.t)
    (id name exp : string) (d : DummyRun.t) :
  fetch_run_details literal_eval c client id name exp = Ok d →
  DummyRun.run_id d = id
  ∧ DummyRun.run_name d = name
  ∧ DummyRun.experiment d = exp
  ∧ DummyRun.artifacts d = []
  ∧ (DummyRun.params d).*1
    = ["mlflow_run_id"; "mlflow_experiment_id"; "description"; "params"; "tags"]%string
  ∧ (∀ h, DummyRun.run_hash d = Some h →
          RunHashCache.get c id = Some h ∧ str_truthy h = true)
  ∧ (DummyRun.run_hash d = None → truthy (RunHashCache.get c id) = false).
Proof.
  unfold fetch_run_details. intros H.
  apply bind_Ok_inv in H as (run & _ & H).
  apply bind_Ok_inv in H as (d0 & Hd0 & H).
  apply collect_run_params_inv in Hd0 as (parsed & _ & ->).
  apply collect_metrics_keys_with in H. rewrite H. clear H.
  unfold get_dummyrun. destruct (truthy (RunHashCache.get c id)) eqn:Ht; simpl.
  - split_and!; try done.
    + intros h Hh. split; [done|]. by rewrite Hh in Ht.
    + intros Hn. by rewrite Hn in Ht.
  - by split_and!.
Qed.

End FetchedShape.

Lemma fetch_run_details_shape_witness :
  ∃ d, fetch_run_details Literal.eval Sample.loaded Sample.client "a1" "first" "A" = Ok d
       ∧ DummyRun.run_name d = "first"%string
       ∧ DummyRun.artifacts d = [].
Proof.
  eexists. split; [reflexivity|].
  match goal with
  | |- DummyRun.run_name ?d = _ ∧ _ =>
      destruct (fetch_run_details_shape Literal.eval Sample.loaded Sample.client
                  "a1" "first" "A" d eq_refl) as (_ & Hname & _ & Hart & _)
  end.
  split; [exact Hname|exact Hart].
Defined.

(** ** A pass as a whole *)

Lemma mapM_raises {A B} (f : A → result B) (l : list A) (x : A) (e : exn) :
  x ∈ l → f x = Raise e → ∃ e', mapM f l = Raise e'.
Proof.
  intros Hx Hfx. induction l as [|y l IH]; [by apply elem_of_nil in Hx|].
  rewrite mapM_cons. destruct (f y) as [b|e0] eqn:Hfy; [|by eexists].
  apply elem_of_cons in Hx as [->|Hx]; [congruence|].
  destruct (IH Hx) as [e' ->]. by eexists.
Qed.

Section WholePass.
Variable literal_eval : string → option pyval.

Local Abbreviation fetch := (fetch_run_details literal_eval).

Lemma fetch_raises_any (c1 c2 : RunHashCache.t) (client : MlflowClient.t)
    (id name exp : string) (e : exn) :
  fetch c1 client id name exp = Raise e → ∃ e', fetch c2 client id name exp = Raise e'.
Proof.
  intros H1. destruct (fetch c2 client id name exp) as [d2|e2] eqn:H2; [|by eexists].
  destruct (fetch_run_details_any literal_eval c2 c1 _ _ _ _ _ H2) as [d1 Hd1]. congruence.
Qed.

Lemma convert_experiments_raises (client : MlflowClient.t) (db_driver : CommitDriver.t)
    (experiments : list Experiment.t) (ex : Experiment.t) (runs : list MlflowRun.t)
    (run : MlflowRun.t) (c0 : RunHashCache.t) (e : exn) (st : RunHashCache.t * World) :
  ex ∈ experiments →
  MlflowClient.search_runs client (Experiment.experiment_id ex) = Ok runs →
  run ∈ runs →
  fetch c0 client (RunInfo.run_id (MlflowRun.info run))
    (RunInfo.run_name (MlflowRun.info run)) (Experiment.name ex) = Raise e →
  ∃ e', convert_experiments literal_eval client db_driver experiments st = Raise e'.
Proof.
  intros Hex Hruns Hrun Hfetch. revert st.
  induction experiments as [|ex0 experiments IH]; intros st;
    [by apply elem_of_nil in Hex|].
  cbn [convert_experiments].
  destruct (convert_experiment literal_eval client db_driver ex0 st) as [st1|e1] eqn:H0;
    [|by eexists].
  rewrite bind_Ok. apply elem_of_cons in Hex as [->|Hex]; [|by apply IH].
  exfalso. unfold convert_experiment in H0. rewrite Hruns, bind_Ok in H0.
  destruct (fetch_raises_any c0 st.1 _ _ _ _ _ Hfetch) as [e' He'].
  destruct (mapM_raises
              (λ run, fetch st.1 client (RunInfo.run_id (MlflowRun.info run))
                        (RunInfo.run_name (MlflowRun.info run)) (Experiment.name ex0))
              runs run e' Hrun He') as [e'' He''].
  by rewrite He'' in H0.
Qed.

(** X12: one run that cannot be fetched stops the whole pass.  When the
    fetch of a run of one of the selected experiments raises (the client
    fails on it, or one of its parameters is not a string), the pass raises
    as well, whatever the repository, the files and the other runs. *)
Theorem failed_fetch_aborts_pass (repo_path : string) (client : MlflowClient.t)
    (experiment : option string) (experiments : list Experiment.t) (ex : Experiment.t)
    (runs : list MlflowRun.t) (run : MlflowRun.t) (c0 : RunHashCache.t) (e : exn)
    (w : World) :
  get_mlflow_experiments client experiment = Ok experiments →
  ex ∈ experiments →
  MlflowClient.search_runs client (Experiment.experiment_id ex) = Ok runs →
  run ∈ runs →
  fetch c0 client (RunInfo.run_id (MlflowRun.info run))
    (RunInfo.run_name (MlflowRun.info run)) (Experiment.name ex) = Raise e →
  ∃ e', convert_existing_logs literal_eval repo_path client experiment w = Raise e'.
Proof.
  intros Hexps Hex Hruns Hrun Hfetch. unfold convert_existing_logs.
  rewrite Hexps, bind_Ok.
  destruct (RunHashCache.__init__ repo_path false (fs w)) as [c fs'].
  destruct (convert_experiments_raises client (CommitDriver.__init__ repo_path 4)
              experiments ex runs run c0 e (c, with_fs w fs') Hex Hruns Hrun Hfetch)
    as [e' ->].
  by eexists.
Qed.

(** X13: a pass that goes through over at least one experiment leaves a
    readable cache file that maps every run of the selected experiments to a
    non-empty hash naming a record of the repository. *)
Theorem pass_records_every_run (repo_path : string) (client : MlflowClient.t)
    (experiment : option string) (experiments : list Experiment.t) (w0 w1 : World) :
  (∀ n, str_truthy (uuid w0 n) = true) →
  (∀ l, ready_order w0 l ≡ₚ l) →
  get_mlflow_experiments client experiment = Ok experiments →
  experiments ≠ [] →
  convert_existing_logs literal_eval repo_path client experiment w0 = Ok w1 →
  ∃ m, json_load (fs w1) (path_join repo_path "mlflow_logs_cache") = Some m
       ∧ ∀ id, run_of_any client experiments id →
               ∃ h, m !! id = Some h ∧ str_truthy h = true ∧ h ∈ dom (repo w1).
Proof.
  intros Huuid Hperm Hexps Hne Hpass. unfold convert_existing_logs in Hpass.
  rewrite Hexps, bind_Ok, init_load in Hpass.
  apply bind_Ok_inv in Hpass as ([c1 w1'] & Hpass & [= ->]).
  apply (convert_experiments_covers _ _ _ _ (λ _, False)) in Hpass
    as (Hcov & _ & _ & Hp & Hfile & _);
    [|simpl; lia|exact Huuid|exact Hperm|by intros id []].
  cbn [fst snd RunHashCache._cache_path] in *.
  exists (RunHashCache._cache c1). split.
  - unfold json_load. by rewrite <-Hp, (Hfile Hne).
  - intros id Hid. apply (Hcov id). by right.
Qed.

End WholePass.

Lemma failed_fetch_aborts_pass_witness :
  ∃ e', convert_existing_logs Literal.eval "repo" Faulty.one_bad_run None Sample.world
        = Raise e'.
Proof.
  apply (failed_fetch_aborts_pass Literal.eval "repo" Faulty.one_bad_run None
           [Sample.exp_a; Sample.exp_b] Sample.exp_a [Sample.run_a1; Sample.run_a2]
           Sample.run_a2 Sample.loaded (MlflowException "INTERNAL_ERROR")).
  - reflexivity.
  - apply elem_of_cons. by left.
  - reflexivity.
  - apply elem_of_cons. right. apply elem_of_cons. by left.
  - reflexivity.
Defined.

Lemma pass_records_every_run_witness :
  ∃ w1 m,
    convert_existing_logs Literal.eval "repo" Sample.client None Sample.world = Ok w1
    ∧ json_load (fs w1) (path_join "repo" "mlflow_logs_cache") = Some m
    ∧ ∀ id, run_of_any Sample.client [Sample.exp_a; Sample.exp_b] id →
            ∃ h, m !! id = Some h ∧ str_truthy h = true ∧ h ∈ dom (repo w1).
Proof.
  assert (∃ w1, convert_existing_logs Literal.eval "repo" Sample.client None Sample.world
                = Ok w1) as (w1 & H1).
  { vm_compute. eexists. reflexivity. }
  destruct (pass_records_every_run Literal.eval "repo" Sample.client None
              [Sample.exp_a; Sample.exp_b] Sample.world w1) as (m & Hm & Hcov).
  - intros n. reflexivity.
  - intros l. apply reverse_Permutation.
  - reflexivity.
  - discriminate.
  - exact H1.
  - exists w1, m. split; [exact H1|]. split; [exact Hm|exact Hcov].
Defined.

(** ** What a pass leaves alone *)

Lemma extends_refl (w : World) : extends w w.
Proof. unfold extends. split_and!; auto. Qed.

Lemma extends_trans (w1 w2 w3 : World) : extends w1 w2 → extends w2 w3 → extends w1 w3.
Proof.
  intros (Hu1 & Ho1 & Hd1 & Hs1 & Hn1) (Hu2 & Ho2 & Hd2 & Hs2 & Hn2).
  unfold extends. split_and!; [congruence|congruence|lia|by etrans|].
  intros h Hh. destruct (Hn2 h Hh) as [Hh2|(n & Hn & ->)].
  - destruct (Hn1 h Hh2) as [?|(n & Hn & ->)]; [by left|].
    right. exists n. split; [lia|done].
  - right. exists n. split; [lia|by rewrite Hu1].
Qed.


Lemma commit_dummy_run_extends (dummy : DummyRun.t) (w : World) (r : AimRun.t)
    (w' : World) :
  commit_dummy_run dummy w = Ok (r, w') → extends w w' ∧ fs w' = fs w.
Proof.
  intros Hc. apply commit_dummy_run_inv in Hc as (Hfs & Hu & Ho & Hrepo & Hcase).
  split; [|done]. unfold extends. rewrite Hrepo, dom_insert_L.
  destruct (DummyRun.run_hash dummy) as [h|].
  - destruct Hcase as (-> & Hin & ->). split_and!; [done|done|lia|apply union_subseteq_r|].
    intros h' [->%elem_of_singleton|?]%elem_of_union; by left.
  - destruct Hcase as (-> & ->). split_and!; [done|done|lia|apply union_subseteq_r|].
    intros h' [->%elem_of_singleton|?]%elem_of_union; [|by left].
    right. exists (drawn w). split; [lia|done].
Qed.

Lemma CommitWorker_commit_extends (runs : list DummyRun.t)
    (st st' : RunHashCache.t * World) :
  CommitWorker_commit runs st = Ok st' →
  extends st.2 st'.2 ∧ fs st'.2 = fs st.2
  ∧ RunHashCache._cache_path st'.1 = RunHashCache._cache_path st.1.
Proof.
  revert st. induction runs as [|d runs IH]; intros [c w] H.
  - injection H as <-. split_and!; [apply extends_refl|done..].
  - cbn [CommitWorker_commit fst snd] in H.
    apply bind_Ok_inv in H as ([r w1] & Hc & H).
    apply commit_dummy_run_extends in Hc as [Hext Hfs].
    apply IH in H as (Hext' & Hfs' & Hp'). cbn [fst snd] in *. split_and!.
    + by eapply extends_trans.
    + congruence.
    + by rewrite Hp', set_cache_path.
Qed.

Section Frames.
Variable literal_eval : string → option pyval.




End Frames.


(** ** Creating records *)

Lemma fresh_hashes_step (w w' : World) :
  fresh_hashes w →
  uuid w' = uuid w → drawn w' = S (drawn w) →
  dom (repo w') = {[uuid w (drawn w)]} ∪ dom (repo w) →
  fresh_hashes w' ∧ size (repo w') = S (size (repo w)).
Proof.
  intros [Hinj Hfresh] Hu Hd Hdom. split; [split|].
  - intros n m Hn Hm. rewrite Hu. apply Hinj; lia.
  - intros n Hn. rewrite Hu, Hdom. intros [Heq%elem_of_singleton|Hin]%elem_of_union.
    + apply Hinj in Heq; lia.
    + apply (Hfresh n); [lia|done].
  - rewrite <-!size_dom, Hdom, size_union, size_singleton; [done|].
    apply disjoint_singleton_l, Hfresh. lia.
Qed.

(** Records without a hash are all created: one hash drawn and one record
    more for each. *)
Lemma CommitWorker_commit_creates (runs : list DummyRun.t) (c : RunHashCache.t)
    (w : World) :
  Forall (λ d, DummyRun.run_hash d = None) runs →
  fresh_hashes w →
  ∃ c' w',
    CommitWorker_commit runs (c, w) = Ok (c', w')
    ∧ drawn w' = drawn w + length runs
    ∧ size (repo w') = size (repo w) + length runs
    ∧ fresh_hashes w'
    ∧ dom (RunHashCache._cache c')
      ⊆ dom (RunHashCache._cache c) ∪ list_to_set (DummyRun.run_id <$> runs).
Proof.
  revert c w. induction runs as [|d runs IH]; intros c w Hall Hfresh.
  - exists c, w. split_and!; [done|simpl; lia|simpl; lia|done|].
    apply union_subseteq_l.
  - apply Forall_cons in Hall as [Hd Hruns].
    destruct (commit_dummy_run_creates d w Hd) as (r & w1 & Hc & Hr & Hdom & Hdrawn).
    pose proof (commit_dummy_run_inv _ _ _ _ Hc) as (_ & Hu & _).
    destruct (fresh_hashes_step w w1 Hfresh Hu Hdrawn Hdom) as [Hfresh1 Hsize1].
    destruct (IH (RunHashCache.set c (DummyRun.run_id d) (AimRun.hash r)) w1 Hruns Hfresh1)
      as (c' & w' & Hc' & Hdrawn' & Hsize' & Hfresh' & Hcache').
    exists c', w'. cbn [CommitWorker_commit fst snd]. rewrite Hc, bind_Ok.
    split_and!; [done|simpl; lia|simpl; lia|done|].
    etrans; [done|]. rewrite setitem_unfold, dom_insert_L, fmap_cons, list_to_set_cons.
    intros x. rewrite !elem_of_union. tauto.
Qed.

Section Creating.
Variable literal_eval : string → option pyval.

Lemma convert_experiment_creates (client : MlflowClient.t) (db_driver : CommitDriver.t)
    (ex : Experiment.t) (runs : list MlflowRun.t) (c c' : RunHashCache.t) (w w' : World) :
  1 ≤ length (CommitDriver.workers db_driver) →
  (∀ l, ready_order w l ≡ₚ l) →
  fresh_hashes w →
  MlflowClient.search_runs client (Experiment.experiment_id ex) = Ok runs →
  (∀ run, run ∈ runs →
          RunInfo.run_id (MlflowRun.info run) ∉ dom (RunHashCache._cache c)) →
  convert_experiment literal_eval client db_driver ex (c, w) = Ok (c', w') →
  drawn w' = drawn w + length runs
  ∧ size (repo w') = size (repo w) + length runs
  ∧ fresh_hashes w'
  ∧ ready_order w' = ready_order w
  ∧ dom (RunHashCache._cache c')
    ⊆ dom (RunHashCache._cache c)
      ∪ list_to_set ((λ run, RunInfo.run_id (MlflowRun.info run)) <$> runs).
Proof.
  intros HW Hperm Hfresh Hruns Hnew H. unfold convert_experiment in H.
  rewrite Hruns, bind_Ok in H. cbn [fst snd] in H.
  apply bind_Ok_inv in H as (ds & Hds & H).
  apply bind_Ok_inv in H as ([c1 w1] & Hcommit & H).
  unfold RunHashCache.refresh in H. injection H as <- <-.
  rewrite CommitDriver_commit_batch in Hcommit by done.
  pose proof (mapM_fetch_frame _ _ _ _ _ _ Hds) as [Hids Hhash].
  assert (Hnone : Forall (λ d, DummyRun.run_hash d = None) (ready_order w ds)).
  { rewrite (Hperm ds). apply Forall_forall. intros d Hd.
    rewrite Forall_forall in Hhash. rewrite (Hhash d Hd).
    assert (Hget : RunHashCache.get c (DummyRun.run_id d) = None).
    { apply (list_elem_of_fmap_2 DummyRun.run_id) in Hd. rewrite Hids in Hd.
      apply list_elem_of_fmap in Hd as (run & -> & Hrun).
      apply not_elem_of_dom. by apply Hnew. }
    by rewrite Hget. }
  destruct (CommitWorker_commit_creates _ c w Hnone Hfresh)
    as (c2 & w2 & Hc2 & Hdrawn & Hsize & Hfresh2 & Hcache).
  rewrite Hc2 in Hcommit. injection Hcommit as <- <-.
  pose proof (CommitWorker_commit_extends _ _ _ Hc2) as ((_ & Ho & _) & _).
  assert (Hlen : length (ready_order w ds) = length runs).
  { rewrite (Hperm ds).
    by rewrite <-(length_fmap DummyRun.run_id), Hids, length_fmap. }
  rewrite Hlen in Hdrawn, Hsize. split_and!; [done|done|done|done|].
  etrans; [done|]. by rewrite (Hperm ds), Hids.
Qed.

Lemma convert_experiments_creates (client : MlflowClient.t) (db_driver : CommitDriver.t)
    (experiments : list Experiment.t) (c c' : RunHashCache.t) (w w' : World) :
  1 ≤ length (CommitDriver.workers db_driver) →
  (∀ l, ready_order w l ≡ₚ l) →
  fresh_hashes w →
  NoDup (source_run_ids client experiments) →
  (∀ id, id ∈ source_run_ids client experiments → id ∉ dom (RunHashCache._cache c)) →
  convert_experiments literal_eval client db_driver experiments (c, w) = Ok (c', w') →
  drawn w' = drawn w + length (source_run_ids client experiments)
  ∧ size (repo w') = size (repo w) + length (source_run_ids client experiments).
Proof.
  intros HW. revert c w.
  induction experiments as [|ex experiments IH]; intros c w Hperm Hfresh Hnd Hnew H.
  - injection H as <- <-. simpl. lia.
  - cbn [convert_experiments] in H. apply bind_Ok_inv in H as ([c1 w1] & Hex & H).
    assert (∃ runs, MlflowClient.search_runs client (Experiment.experiment_id ex)
                    = Ok runs) as [runs Hruns].
    { unfold convert_experiment in Hex. apply bind_Ok_inv in Hex as (runs & ? & _). eauto. }
    unfold source_run_ids in *. rewrite bind_cons, Hruns in Hnd, Hnew |- *.
    apply NoDup_app in Hnd as (_ & Hdisj & Hnd).
    destruct (convert_experiment_creates client db_driver ex runs c c1 w w1)
      as (Hdrawn & Hsize & Hfresh1 & Ho & Hcache); [done..| |done|].
    { intros run Hrun. apply Hnew, elem_of_app. left.
      by apply (list_elem_of_fmap_2 (λ run, RunInfo.run_id (MlflowRun.info run))). }
    destruct (IH c1 w1) as [Hdrawn' Hsize']; [|done|done| |done|].
    + intros l. by rewrite Ho.
    + intros id Hid Hin. apply Hcache in Hin.
      apply elem_of_union in Hin as [Hin|Hin].
      * apply (Hnew id); [apply elem_of_app; by right|done].
      * apply elem_of_list_to_set in Hin. by apply (Hdisj id).
    + rewrite length_app, length_fmap. lia.
Qed.

(** X15: the first pass into a repository without a readable cache file
    creates one record for each run of the selected experiments.  When the
    run ids of the source are pairwise distinct and the hashes Aim generates
    are new and pairwise distinct, a pass that goes through has drawn as many
    hashes as the source has runs and the repository has that many records
    more. *)
Theorem first_pass_one_record_per_run (repo_path : string) (client : MlflowClient.t)
    (experiment : option string) (experiments : list Experiment.t) (w0 w1 : World) :
  json_load (fs w0) (path_join repo_path "mlflow_logs_cache") = None →
  get_mlflow_experiments client experiment = Ok experiments →
  NoDup (source_run_ids client experiments) →
  (∀ l, ready_order w0 l ≡ₚ l) →
  fresh_hashes w0 →
  convert_existing_logs literal_eval repo_path client experiment w0 = Ok w1 →
  drawn w1 = drawn w0 + length (source_run_ids client experiments)
  ∧ size (repo w1) = size (repo w0) + length (source_run_ids client experiments).
Proof.
  intros Hfile Hexps Hnd Hperm Hfresh Hpass. unfold convert_existing_logs in Hpass.
  rewrite Hexps, bind_Ok, init_load, Hfile in Hpass.
  apply bind_Ok_inv in Hpass as ([c1 w1'] & Hpass & [= ->]).
  apply convert_experiments_creates in Hpass; [done|simpl; lia|done|done|done|].
  intros id _. simpl. rewrite dom_empty_L. apply not_elem_of_empty.
Qed.

End Creating.

Lemma sample_world_fresh : fresh_hashes Sample.world.
Proof.
  split.
  - intros n m _ _ Heq. simpl in Heq. injection Heq as Heq. by apply (inj pretty).
  - intros n _. simpl. rewrite dom_empty_L. apply not_elem_of_empty.
Qed.

Lemma first_pass_one_record_per_run_witness :
  ∃ w1,
    convert_existing_logs Literal.eval "repo" Sample.client None Sample.world = Ok w1
    ∧ size (repo w1) = size (repo Sample.world) + 3.
Proof.
  assert (∃ w1, convert_existing_logs Literal.eval "repo" Sample.client None Sample.world
                = Ok w1) as (w1 & H1).
  { vm_compute. eexists. reflexivity. }
  destruct (first_pass_one_record_per_run Literal.eval "repo" Sample.client None
              [Sample.exp_a; Sample.exp_b] Sample.world w1) as [_ Hsize].
  - reflexivity.
  - reflexivity.
  - apply (bool_decide_unpack _). by vm_compute.
  - intros l. apply reverse_Permutation.
  - apply sample_world_fresh.
  - exact H1.
  - exists w1. split; [exact H1|exact Hsize].
Defined.

(** ** An experiment without runs *)

Section EmptyExperiment.
Variable literal_eval : string → option pyval.

(** X16: for an experiment without runs the pass fetches and commits nothing
    (every worker gets an empty list and none fails), and still writes the
    cache file: afterwards the file holds the mapping of the cache, the
    repository and the cache are as they were and no hash was drawn. *)
Theorem experiment_without_runs (client : MlflowClient.t) (db_driver : CommitDriver.t)
    (ex : Experiment.t) (c : RunHashCache.t) (w : World) :
  1 ≤ length (CommitDriver.workers db_driver) →
  (∀ l, ready_order w l ≡ₚ l) →
  MlflowClient.search_runs client (Experiment.experiment_id ex) = Ok [] →
  ∃ w', convert_experiment literal_eval client db_driver ex (c, w) = Ok (c, w')
        ∧ repo w' = repo w ∧ drawn w' = drawn w
        ∧ fs w' = <[RunHashCache._cache_path c := JsonObject (RunHashCache._cache c)]> (fs w).
Proof.
  intros HW Hperm Hruns. unfold convert_experiment.
  rewrite Hruns, bind_Ok, mapM_nil, bind_Ok. cbn [fst snd].
  assert (ready_order w [] = []) as ->.
  { apply Permutation_nil_r. symmetry. by rewrite (Hperm []). }
  rewrite CommitDriver_commit_batch by done. cbn [CommitWorker_commit]. rewrite bind_Ok.
  unfold RunHashCache.refresh. rewrite fs_run_refresh.
  eexists. split; [reflexivity|]. by split_and!.
Qed.

End EmptyExperiment.

Lemma experiment_without_runs_witness :
  ∃ w', convert_experiment Literal.eval Sample.client (CommitDriver.__init__ "repo" 4)
          {| Experiment.experiment_id := "7"; Experiment.name := "empty" |}
          (Sample.loaded, Sample.world) = Ok (Sample.loaded, w')
        ∧ repo w' = repo Sample.world.
Proof.
  destruct (experiment_without_runs Literal.eval Sample.client
              (CommitDriver.__init__ "repo" 4)
              {| Experiment.experiment_id := "7"; Experiment.name := "empty" |}
              Sample.loaded Sample.world) as (w' & H & Hrepo & _).
  - simpl. lia.
  - intros l. apply reverse_Permutation.
  - reflexivity.
  - exists w'. split; [exact H|exact Hrepo].
Defined.

(** ** The command line *)

Section Sync.
Variable literal_eval : string → option pyval.
Variable clean_repo_path : option string → string.
Variable default_repo_path : string.
Variable connect : string → MlflowClient.t.

Local Abbreviation sync_ := (sync literal_eval clean_repo_path default_repo_path connect).

(** X17: where [sync] takes the tracking URI from, and what it does with
    and without one.  A non-empty [--mlflow-tracking-uri] is used whatever the
    environment holds; a missing or empty one falls back to
    [MLFLOW_TRACKING_URI]; and when that is missing or empty too, the command
    raises [ClickException] without running a pass, whatever its other
    arguments.  With a URI from either place the command runs one pass on the
    client of that URI and the cleaned (or default) repository path: when the
    pass raises, the command fails with that exception and the watcher is not
    started, in either mode; when the pass returns, the command returns the
    world it leaves outside continuous mode, and in continuous mode starts
    the watcher on that world, with the repository path, URI, experiment
    selector and exclusion patterns of the command. *)
Theorem sync_tracking_uri (aim_repo flag experiment : option string)
    (exclude_artifacts : list string) (environ : gmap string string) (w : World) :
  let repo_path :=
    if str_truthy (clean_repo_path aim_repo) then clean_repo_path aim_repo
    else default_repo_path in
  let outcome (continuous_mode : bool) uri :=
    match convert_existing_logs literal_eval repo_path (connect uri) experiment w with
    | Ok w' =>
        if continuous_mode then Watching repo_path uri experiment exclude_artifacts w'
        else Returned w'
    | Raise e => PassFailed e
    end in
  (∀ uri continuous_mode, flag = Some uri → str_truthy uri = true →
     sync_ aim_repo flag experiment exclude_artifacts continuous_mode environ w
     = outcome continuous_mode uri)
  ∧ (∀ uri continuous_mode, truthy flag = false →
       environ !! "MLFLOW_TRACKING_URI"%string = Some uri → str_truthy uri = true →
       sync_ aim_repo flag experiment exclude_artifacts continuous_mode environ w
       = outcome continuous_mode uri)
  ∧ (truthy flag = false → truthy (environ !! "MLFLOW_TRACKING_URI"%string) = false →
     ∀ continuous_mode,
       sync_ aim_repo flag experiment exclude_artifacts continuous_mode environ w
       = ClickException
           "MLFlow tracking URI must be provided either through ENV or CLI.")
  ∧ (∀ uri, flag = Some uri → str_truthy uri = true →
       sync_ aim_repo flag experiment exclude_artifacts false environ w
       = match convert_existing_logs literal_eval repo_path (connect uri) experiment w with
         | Ok w' => Returned w'
         | Raise e => PassFailed e
         end)
  ∧ (∀ uri, truthy flag = false →
       environ !! "MLFLOW_TRACKING_URI"%string = Some uri → str_truthy uri = true →
       sync_ aim_repo flag experiment exclude_artifacts false environ w
       = match convert_existing_logs literal_eval repo_path (connect uri) experiment w with
         | Ok w' => Returned w'
         | Raise e => PassFailed e
         end)
  ∧ (∀ uri, flag = Some uri → str_truthy uri = true →
       sync_ aim_repo flag experiment exclude_artifacts true environ w
       = match convert_existing_logs literal_eval repo_path (connect uri) experiment w with
         | Ok w' => Watching repo_path uri experiment exclude_artifacts w'
         | Raise e => PassFailed e
         end)
  ∧ (∀ uri, truthy flag = false →
       environ !! "MLFLOW_TRACKING_URI"%string = Some uri → str_truthy uri = true →
       sync_ aim_repo flag experiment exclude_artifacts true environ w
       = match convert_existing_logs literal_eval repo_path (connect uri) experiment w with
         | Ok w' => Watching repo_path uri experiment exclude_artifacts w'
         | Raise e => PassFailed e
         end).
Proof.
  intros repo_path outcome.
  assert (Hflag : ∀ uri continuous_mode, flag = Some uri → str_truthy uri = true →
            sync_ aim_repo flag experiment exclude_artifacts continuous_mode environ w
            = outcome continuous_mode uri).
  { intros uri continuous_mode -> Huri. unfold sync. fold repo_path.
    simpl. rewrite Huri. simpl. rewrite Huri. simpl. unfold outcome.
    destruct (convert_existing_logs _ _ _ _ _); [|done]. by destruct continuous_mode. }
  assert (Henv : ∀ uri continuous_mode, truthy flag = false →
            environ !! "MLFLOW_TRACKING_URI"%string = Some uri → str_truthy uri = true →
            sync_ aim_repo flag experiment exclude_artifacts continuous_mode environ w
            = outcome continuous_mode uri).
  { intros uri continuous_mode Hf He Huri. unfold sync. fold repo_path.
    rewrite Hf, He, Huri. simpl. unfold outcome.
    destruct (convert_existing_logs _ _ _ _ _); [|done]. by destruct continuous_mode. }
  split_and!.
  - exact Hflag.
  - exact Henv.
  - intros Hf He continuous_mode. unfold sync. rewrite Hf.
    destruct (environ !! "MLFLOW_TRACKING_URI"%string) as [uri|]; [|done].
    simpl in He. by rewrite He.
  - intros uri Hf Huri. by rewrite (Hflag uri false Hf Huri).
  - intros uri Hf He Huri. by rewrite (Henv uri false Hf He Huri).
  - intros uri Hf Huri. by rewrite (Hflag uri true Hf Huri).
  - intros uri Hf He Huri. by rewrite (Henv uri true Hf He Huri).
Qed.

End Sync.

Lemma sync_tracking_uri_witness :
  sync Literal.eval (default EmptyString) "." (λ _, Sample.client)
    None (Some EmptyString) None [] true
    {[ "MLFLOW_TRACKING_URI"%string := EmptyString ]} Sample.world
  = ClickException "MLFlow tracking URI must be provided either through ENV or CLI."
  ∧ ∃ w',
      convert_existing_logs Literal.eval "." Sample.client (Some "B"%string) Sample.world
      = Ok w'
      ∧ sync Literal.eval (default EmptyString) "." (λ _, Sample.client)
          None None (Some "B"%string) ["*.png"%string] true
          {[ "MLFLOW_TRACKING_URI"%string := "http://tracking"%string ]} Sample.world
        = Watching "." "http://tracking" (Some "B"%string) ["*.png"%string] w'.
Proof.
  split.
  - destruct (sync_tracking_uri Literal.eval (default EmptyString) "."
                (λ _, Sample.client) None (Some EmptyString) None []
                {[ "MLFLOW_TRACKING_URI"%string := EmptyString ]} Sample.world)
      as (_ & _ & H & _).
    apply H; reflexivity.
  - assert (∃ w', convert_existing_logs Literal.eval "." Sample.client
                    (Some "B"%string) Sample.world = Ok w') as (w' & Hpass).
    { vm_compute. eexists. reflexivity. }
    exists w'. split; [exact Hpass|].
    destruct (sync_tracking_uri Literal.eval (default EmptyString) "."
                (λ _, Sample.client) None None (Some "B"%string) ["*.png"%string]
                {[ "MLFLOW_TRACKING_URI"%string := "http://tracking"%string ]}
                Sample.world) as (_ & _ & _ & _ & _ & _ & H).
    rewrite (H "http://tracking"%string eq_refl eq_refl eq_refl).
    simpl. by rewrite Hpass.
Defined.
